(** * Folder scanner, folder report and extension filter: a shallow embedding

    The development follows the three Python programs of the repository:
    - [folder_scanner.py]: single-level scan ([os.listdir]), plain report;
    - [folder_report.py]: recursive scan ([Path.rglob]), structured report;
    - [filter_by_extension.py]: recursive scan with include / exclude filters.

    Python values are modelled as follows.  Integers (file counts and byte
    counts, all non-negative) are [N].  Text is [string], read as the UTF-8
    bytes of the Python [str]; [str.lower] is modelled on ASCII letters.
    A Python [float] is kept as an exact dyadic rational.  Exceptions are a
    sum type, and the calls made to the file system are recorded in a trace
    so that statements about the order of effects can be made. *)

From Stdlib Require Import String Ascii List NArith Lia Bool DecimalString.
From Stdlib Require Import Permutation Sorted.
Import ListNotations.
Local Open Scope string_scope.
Local Open Scope N_scope.

(** ** The Python runtime used by the three programs *)

Module Py.

(** Exceptions raised by the programs or by the runtime under them. *)
Inductive exn : Type :=
| NotADirectoryError (msg : string)
| OSError
| OverflowError
| KeyError (key : string)
| SystemExit (code : N).

(** The outcome of a call: a value or a raised exception. *)
Inductive result (A : Type) : Type :=
| Ok (a : A)
| Raise (e : exn).
Arguments Ok {A} a.
Arguments Raise {A} e.

Definition bindR {A B} (r : result A) (k : A -> result B) : result B :=
  match r with
  | Ok a => k a
  | Raise e => Raise e
  end.

(** Calls that reach outside the process, in the order they are made. *)
Inductive event : Type :=
| EvResolve (p : string)       (* Path(p).resolve() *)
| EvIsDir (p : string)         (* Path.is_dir / os.path.isdir *)
| EvWalk (p : string)          (* Path.rglob("*") / os.listdir *)
| EvIsFile (p : string)        (* Path.is_file / os.path.isfile *)
| EvStat (p : string)          (* Path.stat / os.path.getsize *)
| EvPrint (line : string).     (* print *)

(** A computation: the trace of its calls and its outcome. *)
Definition M (A : Type) : Type := (list event * result A)%type.

Definition ret {A} (a : A) : M A := ([], Ok a).

Definition raise {A} (e : exn) : M A := ([], Raise e).

Definition emit (ev : event) : M unit := ([ev], Ok tt).

Definition bind {A B} (m : M A) (k : A -> M B) : M B :=
  match m with
  | (t, Ok a) => let (t', r) := k a in ((t ++ t')%list, r)
  | (t, Raise e) => (t, Raise e)
  end.

(** [try: m except OSError: h] *)
Definition try_except_OSError {A} (m : M A) (h : M A) : M A :=
  match m with
  | (t, Raise OSError) => let (t', r) := h in ((t ++ t')%list, r)
  | other => other
  end.

(** [for x in xs: st = body st x], stopping at the first exception. *)
Fixpoint for_each {X S} (xs : list X) (body : S -> X -> M S) (st : S) : M S :=
  match xs with
  | [] => ret st
  | x :: xs' => bind (body st x) (for_each xs' body)
  end.

Definition trace {A} (m : M A) : list event := fst m.
Definition outcome {A} (m : M A) : result A := snd m.

Declare Scope py_scope.
Delimit Scope py_scope with py.
Notation "x <- m ;; k" := (bind m (fun x => k))
  (at level 61, m at next level, right associativity) : py_scope.
Notation "m ;; k" := (bind m (fun _ => k))
  (at level 61, right associativity) : py_scope.
Notation "x <~ r ;; k" := (bindR r (fun x => k))
  (at level 61, r at next level, right associativity) : py_scope.

(** *** Text *)

Definition lower_ascii (c : ascii) : ascii :=
  let n := N_of_ascii c in
  if (65 <=? n) && (n <=? 90) then ascii_of_N (n + 32) else c.

(** [s.lower()] *)
Fixpoint lower (s : string) : string :=
  match s with
  | EmptyString => EmptyString
  | String c s' => String (lower_ascii c) (lower s')
  end.

(** [s.startswith(p)] *)
Definition startswith (s p : string) : bool := String.prefix p s.

(** [s * n] *)
Fixpoint repeat_str (s : string) (n : nat) : string :=
  match n with
  | O => ""
  | S n' => s ++ repeat_str s n'
  end.

(** [sep.join(ls)] *)
Definition join (sep : string) (ls : list string) : string :=
  String.concat sep ls.

(** [str(n)] for a non-negative integer. *)
Definition str_of_int (n : N) : string :=
  NilZero.string_of_uint (N.to_uint n).

(** [f"{s:w}"]: left-aligned in a field of [w] characters. *)
Definition ljust (s : string) (w : nat) : string :=
  s ++ repeat_str " " (w - String.length s).

(** [f"{n:w}"] for an integer: right-aligned in a field of [w] characters. *)
Definition rjust_int (n : N) (w : nat) : string :=
  let s := str_of_int n in
  repeat_str " " (w - String.length s) ++ s.

(** [lines.extend(more)], [lines += more]; [lines.append(x)] is
    [extend lines [x]]. *)
Definition extend (lines more : list string) : list string :=
  (lines ++ more)%list.

(** [for x in xs: lines.append(line x)], where [line] may raise. *)
Fixpoint map_result {X Y} (line : X -> result Y) (xs : list X)
  : result (list Y) :=
  match xs with
  | [] => Ok []
  | x :: xs' =>
      bindR (line x) (fun y =>
      bindR (map_result line xs') (fun ys => Ok (y :: ys)))
  end.

(** [x in xs] for a list of strings. *)
Definition str_in (x : string) (xs : list string) : bool :=
  existsb (String.eqb x) xs.

(** [sorted(keys)]: ascending by code point. *)
Fixpoint insert_sorted (k : string) (ks : list string) : list string :=
  match ks with
  | [] => [k]
  | k' :: ks' =>
      if String.leb k k' then k :: ks else k' :: insert_sorted k ks'
  end.

Definition sorted (ks : list string) : list string :=
  fold_right insert_sorted [] ks.

(** *** Numbers

    A number held in a Python variable is an [int] or a [float].  A finite
    non-negative float is the dyadic rational [m / 2^j]. *)
Inductive num : Type :=
| Int (n : N)
| Float (m : N) (j : N).

(** Round to nearest, ties to even, of [n / 2^sh]. *)
Definition round_shift (n sh : N) : N :=
  let q := N.shiftr n sh in
  let r := N.land n (N.ones sh) in
  let half := N.shiftl 1 (sh - 1) in
  if sh =? 0 then q
  else if (half <? r) || ((r =? half) && N.odd q) then q + 1 else q.

(** The binary64 value nearest to the integer [n] (53 significant bits). *)
Definition round53 (n : N) : N :=
  if n <? 2 ^ 53 then n
  else let sh := N.log2 n - 52 in N.shiftl (round_shift n sh) sh.

(** [float(n)], as the integer it is equal to: fails once the nearest
    binary64 value is not finite. *)
Definition float_of_int (n : N) : result N :=
  let m := round53 n in
  if m <? 2 ^ 1024 then Ok m else Raise OverflowError.

(** [x < 1024] *)
Definition lt_1024 (x : num) : bool :=
  match x with
  | Int n => n <? 1024
  | Float m j => m <? 1024 * 2 ^ j
  end.

(** [x / 2^k] for [k > 0]: true division, correctly rounded.  For two
    integers the quotient is rounded once; a float is only rescaled. *)
Definition div_pow2 (x : num) (k : N) : result num :=
  match x with
  | Int n =>
      let m := round53 n in
      if m <? 2 ^ (1024 + k) then Ok (Float m k) else Raise OverflowError
  | Float m j => Ok (Float m (j + k))
  end.

(** Two decimals of [m / 2^j], correctly rounded, ties to even: the number
    of hundredths. *)
Definition hundredths (m j : N) : N := round_shift (100 * m) j.

Definition two_digits (n : N) : string :=
  if n <? 10 then "0" ++ str_of_int n else str_of_int n.

Definition render_2f (m j : N) : string :=
  let h := hundredths m j in
  str_of_int (h / 100) ++ "." ++ two_digits (h mod 100).

(** [f"{x:.2f}"] *)
Definition format_2f (x : num) : result string :=
  match x with
  | Int n => bindR (float_of_int n) (fun m => Ok (render_2f m 0))
  | Float m j => Ok (render_2f m j)
  end.


(** *** The file system, as the programs see it

    A [Path] carries the three attributes the programs read.  An entry of a
    walk carries, next to its path, what the two queries made on it answer:
    [is_file()] and [stat().st_size] ([None] when [stat] raises [OSError]). *)
Record Path : Type := mkPath
  { path_str : string;     (* str(p) *)
    name : string;         (* p.name *)
    suffix : string }.     (* p.suffix *)

Record Entry : Type := mkEntry
  { e_path : Path;
    e_is_file : bool;
    e_stat : option N }.

(** An entry of [os.listdir]: its name, what [os.path.isfile] and
    [os.path.getsize] answer on the joined path, and the extension part of
    [os.path.splitext]. *)
Record DirEntry : Type := mkDirEntry
  { d_name : string;
    d_is_file : bool;
    d_getsize : option N;
    d_ext : string }.

Record FileSystem : Type := mkFS
  { fs_resolve : string -> string;
    fs_is_dir : string -> bool;
    fs_rglob : string -> list Entry;
    fs_listdir : string -> list DirEntry }.

Definition resolve (fs : FileSystem) (p : string) : M string :=
  (emit (EvResolve p) ;; ret (fs_resolve fs p))%py.

Definition is_dir (fs : FileSystem) (p : string) : M bool :=
  (emit (EvIsDir p) ;; ret (fs_is_dir fs p))%py.

Definition rglob (fs : FileSystem) (p : string) : M (list Entry) :=
  (emit (EvWalk p) ;; ret (fs_rglob fs p))%py.

Definition listdir (fs : FileSystem) (p : string) : M (list DirEntry) :=
  (emit (EvWalk p) ;; ret (fs_listdir fs p))%py.

Definition is_file (e : Entry) : M bool :=
  (emit (EvIsFile (path_str (e_path e))) ;; ret (e_is_file e))%py.

(** [entry.stat().st_size] *)
Definition stat_size (e : Entry) : M N :=
  (emit (EvStat (path_str (e_path e))) ;;
   match e_stat e with
   | Some n => ret n
   | None => raise OSError
   end)%py.

(** [a or b] on strings. *)
Definition str_or (a b : string) : string :=
  if String.eqb a "" then b else a.

(** The size the recursive scanners work with: 0 when [stat] fails. *)
Definition size_or_zero (e : Entry) : N :=
  match e_stat e with
  | Some n => n
  | None => 0
  end.

(** *** What a whole program does

    The [main] functions also print and write files.  An action is a call
    already traced by the scanners, a text written to a file, or the usage
    error of the argument parser. *)
Inductive action : Type :=
| Call (ev : event)
| WriteText (path text : string)   (* Path.write_text, open(p, "w").write *)
| UsageError (msg : string).       (* parser.error: usage on stderr *)

Definition IO (A : Type) : Type := (list action * result A)%type.

Definition io_ret {A} (a : A) : IO A := ([], Ok a).

Definition io_raise {A} (e : exn) : IO A := ([], Raise e).

Definition io_bind {A B} (m : IO A) (k : A -> IO B) : IO B :=
  match m with
  | (t, Ok a) => let (t', r) := k a in ((t ++ t')%list, r)
  | (t, Raise e) => (t, Raise e)
  end.

Notation "x <<- m ;; k" := (io_bind m (fun x => k))
  (at level 61, m at next level, right associativity) : py_scope.
Notation "m ;;; k" := (io_bind m (fun _ => k))
  (at level 61, right associativity) : py_scope.

(** A scanner call made from [main]. *)
Definition lift {A} (m : M A) : IO A := (map Call (fst m), snd m).

(** A pure computation that may raise. *)
Definition io_of_result {A} (r : result A) : IO A := ([], r).

(** [print(line)] *)
Definition print (line : string) : IO unit := ([Call (EvPrint line)], Ok tt).

(** Writing [text] to the file [path]; [OSError] when the file cannot be
    opened for writing. *)
Definition write_text (can_write : string -> bool) (path text : string)
  : IO unit :=
  if can_write path then ([WriteText path text], Ok tt) else io_raise OSError.

(** [try: m except NotADirectoryError as e: h(str(e))] *)
Definition try_except_NotADirectoryError {A} (m : IO A)
    (h : string -> IO A) : IO A :=
  match m with
  | (t, Raise (NotADirectoryError msg)) =>
      let (t', r) := h msg in ((t ++ t')%list, r)
  | other => other
  end.

(** *** Paths (pathlib, POSIX flavour) *)

(** [s.split("/")] *)
Fixpoint split_slash (s : string) : list string :=
  match s with
  | EmptyString => [""]
  | String c s' =>
      if Ascii.eqb c "/" then "" :: split_slash s'
      else match split_slash s' with
           | [] => [String c ""]
           | x :: xs => String c x :: xs
           end
  end.

(** The root of a path: ["/"], ["//"] for exactly two leading slashes, or
    none. *)
Definition path_root (s : string) : string :=
  if String.prefix "///" s then "/"
  else if String.prefix "//" s then "//"
  else if String.prefix "/" s then "/"
  else "".

(** The components of a path after its root: empty ones and ["."] are
    dropped. *)
Definition path_tail (s : string) : list string :=
  filter (fun x => negb (String.eqb x "" || String.eqb x "."))
         (split_slash s).

(** [Path(s).name] *)
Definition path_name (s : string) : string := last (path_tail s) "".

(** [str(Path(s))] *)
Definition path_text (s : string) : string :=
  str_or (path_root s ++ join "/" (path_tail s)) ".".

(** [os.path.join(a, b)], which [Path(a) / b] applies before parsing. *)
Definition posix_join (a b : string) : string :=
  if startswith b "/" then b
  else if String.eqb a "" then b
  else if String.eqb (substring (String.length a - 1) 1 a) "/" then a ++ b
  else a ++ "/" ++ b.

(** [str(Path(a) / b)] *)
Definition path_child (a b : string) : string := path_text (posix_join a b).

End Py.

Import Py.
Local Open Scope py_scope.

(** ** folder_report.py *)

Module folder_report.

(** The loop of [format_size] over the remaining units. *)
Fixpoint format_size_loop (units : list string) (size_bytes : num)
  : result string :=
  match units with
  | [] => s <~ format_2f size_bytes ;; Ok (s ++ " PB")
  | unit :: rest =>
      if lt_1024 size_bytes
      then s <~ format_2f size_bytes ;; Ok (s ++ " " ++ unit)
      else x <~ div_pow2 size_bytes 10 ;; format_size_loop rest x
  end.

Definition format_size (size_bytes : N) : result string :=
  format_size_loop ["B"; "KB"; "MB"; "GB"; "TB"] (Int size_bytes).

(** One value of [by_extension]: [{"count": c, "size": s}]. *)
Record bucket : Type := mkBucket { count : N; size : N }.

(** [by_extension], in insertion order. *)
Definition buckets : Type := list (string * bucket).

(** [d[k]] followed by an update in place of the value found; a missing
    key is first given the default [{"count": 0, "size": 0}]. *)
Fixpoint dd_update (d : buckets) (k : string) (f : bucket -> bucket)
  : buckets :=
  match d with
  | [] => [(k, f (mkBucket 0 0))]
  | (k', b) :: d' =>
      if String.eqb k' k then (k', f b) :: d'
      else (k', b) :: dd_update d' k f
  end.

Definition add_count (b : bucket) : bucket :=
  mkBucket (count b + 1) (size b).

Definition add_size (sz : N) (b : bucket) : bucket :=
  mkBucket (count b) (size b + sz).

(** The local variables of [scan_folder]. *)
Record locals : Type := mkLocals
  { total_files : N;
    total_size : N;
    largest_file : option Path;
    largest_size : N;
    by_extension : buckets }.

Definition init : locals := mkLocals 0 0 None 0 [].

(** The statements that account for one file of size [sz]. *)
Definition account (st : locals) (entry : Entry) (sz : N) : locals :=
  let total_files := total_files st + 1 in
  let total_size := total_size st + sz in
  let '(largest_size, largest_file) :=
    if largest_size st <=? sz then (sz, Some (e_path entry))
    else (largest_size st, largest_file st) in
  let ext := str_or (lower (suffix (e_path entry))) "(no extension)" in
  let by_extension := dd_update (by_extension st) ext add_count in
  let by_extension := dd_update by_extension ext (add_size sz) in
  mkLocals total_files total_size largest_file largest_size by_extension.

(** The body of the [for entry in root.rglob("*")] loop. *)
Definition body (st : locals) (entry : Entry) : M locals :=
  f <- is_file entry ;;
  if f then
    sz <- try_except_OSError (stat_size entry) (ret 0) ;;
    ret (account st entry sz)
  else ret st.

(** The dictionary returned by [scan_folder]. *)
Record data : Type := mkData
  { folder : string;
    d_total_files : N;
    d_total_size : N;
    d_largest_file : option Path;
    d_largest_size : N;
    d_by_extension : buckets }.

Definition scan_folder (fs : FileSystem) (folder_path : string) : M data :=
  root <- resolve fs folder_path ;;
  d <- is_dir fs root ;;
  if negb d
  then raise (NotADirectoryError ("Not a directory: " ++ folder_path))
  else
    entries <- rglob fs root ;;
    st <- for_each entries body init ;;
    ret (mkData root (total_files st) (total_size st) (largest_file st)
                (largest_size st) (by_extension st)).

(** [data["by_extension"][ext]] *)
Fixpoint getitem (d : buckets) (ext : string) : result bucket :=
  match d with
  | [] => Raise (KeyError ext)
  | (k, b) :: d' => if String.eqb k ext then Ok b else getitem d' ext
  end.

(** The "Largest file" lines, shared with the filtered report. *)
Definition largest_lines (largest_file : option Path) (largest_size : N)
  : result (list string) :=
  match largest_file with
  | Some p =>
      sz <~ format_size largest_size ;;
      Ok [ "Largest file: " ++ name p ++ " (" ++ sz ++ ")";
           "  Path: " ++ path_str p ]
  | None => Ok [ "Largest file: (none)" ]
  end.

(** One line of the breakdown, shared with the filtered report. *)
Definition breakdown_line (d : buckets) (ext : string) : result string :=
  info <~ getitem d ext ;;
  sz <~ format_size (size info) ;;
  Ok ("  " ++ ljust ext 20 ++ "  count: " ++ rjust_int (count info) 6
      ++ "  size: " ++ sz).

Definition build_report (d : data) : result string :=
  total <~ format_size (d_total_size d) ;;
  let lines :=
    [ repeat_str "=" 60;
      "FOLDER SCAN REPORT";
      repeat_str "=" 60;
      "Folder: " ++ folder d;
      "";
      "SUMMARY";
      repeat_str "-" 40;
      "Total files:  " ++ str_of_int (d_total_files d);
      "Total size:   " ++ total;
      "" ] in
  largest <~ largest_lines (d_largest_file d) (d_largest_size d) ;;
  let lines := extend lines largest in
  let lines :=
    extend lines [ ""; "FILE TYPES BREAKDOWN"; repeat_str "-" 40 ] in
  rows <~ map_result (breakdown_line (d_by_extension d))
            (sorted (map fst (d_by_extension d))) ;;
  let lines := extend lines rows in
  let lines := extend lines [ repeat_str "=" 60 ] in
  Ok (join (String (ascii_of_N 10) "") lines).

(** The arguments parsed by [main]: the folder, [--output], [--no-save]. *)
Record Args : Type := mkArgs
  { arg_folder : string;
    arg_output : option string;
    arg_no_save : bool }.

(** The path the report is saved to, before it is resolved: [--output] when
    given and not empty, else a file named after the folder, in it. *)
Definition out_path (prefix folder : string) (output : option string)
  : string :=
  match output with
  | Some (String c o) => path_text (String c o)
  | _ =>
      let folder_name := str_or (path_name folder) "root" in
      path_child folder (prefix ++ folder_name ++ ".txt")
  end.

(** The end of [main], shared with the filtered program: print the report
    and save it unless [--no-save] is given. *)
Definition print_and_save (fs : FileSystem) (can_write : string -> bool)
    (prefix folder : string) (output : option string) (no_save : bool)
    (report : string) : IO N :=
  print report ;;;
  (if negb no_save then
     out <<- lift (resolve fs (out_path prefix folder output)) ;;
     write_text can_write out report ;;;
     print (String (ascii_of_N 10) "Report saved to: " ++ out)
   else io_ret tt) ;;;
  io_ret 0.

(** [main]: the [try] covers the scan only; its handler prints the error
    and returns 1. *)
Definition main (fs : FileSystem) (can_write : string -> bool) (args : Args)
  : IO N :=
  scanned <<- try_except_NotADirectoryError
                (data <<- lift (scan_folder fs (arg_folder args)) ;;
                 io_ret (inl data))
                (fun e => print ("Error: " ++ e) ;;; io_ret (inr 1)) ;;
  match scanned with
  | inr code => io_ret code
  | inl data =>
      report <<- io_of_result (build_report data) ;;
      print_and_save fs can_write "folder_report_" (arg_folder args)
                     (arg_output args) (arg_no_save args) report
  end.

End folder_report.

(** ** filter_by_extension.py *)

Module filter_by_extension.

Import folder_report.

(** Truth value of an optional list: [None] and [[]] are false. *)
Definition truthy (l : option (list string)) : bool :=
  match l with
  | Some (_ :: _) => true
  | _ => false
  end.

(** [e if e.startswith(".") else f".{e}"] *)
Definition add_dot (e : string) : string :=
  if startswith e "." then e else "." ++ e.

(** The two list comprehensions applied to a filter list. *)
Definition normalize_list (l : list string) : list string :=
  map lower (map add_dot l).

(** [if l: l = ...; l = ...] *)
Definition normalize (l : option (list string)) : option (list string) :=
  if truthy l then option_map normalize_list l else l.

(** [l and ext not in l] / [l and ext in l], for a filter list [l]. *)
Definition members (l : option (list string)) : list string :=
  match l with
  | Some xs => xs
  | None => []
  end.

(** The local variables of [scan_folder_filtered]: those of [scan_folder]
    and the [skipped] counter. *)
Record locals : Type := mkLocals
  { base : folder_report.locals;
    skipped : N }.

Definition init : locals := mkLocals folder_report.init 0.

Definition ext_of (entry : Entry) : string :=
  str_or (lower (suffix (e_path entry))) "(no extension)".

(** The body of the [for entry in root.rglob("*")] loop; [extensions] and
    [exclude] are the normalized filters. *)
Definition body (extensions exclude : option (list string))
    (st : locals) (entry : Entry) : M locals :=
  f <- is_file entry ;;
  if negb f then ret st
  else
    let ext := ext_of entry in
    if truthy extensions && negb (str_in ext (members extensions))
    then ret (mkLocals (base st) (skipped st + 1))
    else if truthy exclude && str_in ext (members exclude)
    then ret (mkLocals (base st) (skipped st + 1))
    else
      sz <- try_except_OSError (stat_size entry) (ret 0) ;;
      ret (mkLocals (account (base st) entry sz) (skipped st)).

(** The dictionary returned by [scan_folder_filtered]. *)
Record data : Type := mkData
  { folder : string;
    total_files : N;
    total_size : N;
    largest_file : option Path;
    largest_size : N;
    by_extension : buckets;
    d_skipped : N;
    filter_include : option (list string);
    filter_exclude : option (list string) }.

Definition scan_folder_filtered (fs : FileSystem) (folder_path : string)
    (extensions exclude : option (list string)) : M data :=
  root <- resolve fs folder_path ;;
  d <- is_dir fs root ;;
  if negb d
  then raise (NotADirectoryError ("Not a directory: " ++ folder_path))
  else
    let extensions := normalize extensions in
    let exclude := normalize exclude in
    entries <- rglob fs root ;;
    st <- for_each entries (body extensions exclude) init ;;
    ret (mkData root
                (folder_report.total_files (base st))
                (folder_report.total_size (base st))
                (folder_report.largest_file (base st))
                (folder_report.largest_size (base st))
                (folder_report.by_extension (base st))
                (skipped st) extensions exclude).

Definition build_filtered_report (d : data) : result string :=
  let lines :=
    [ repeat_str "=" 60;
      "FOLDER SCAN REPORT (FILTERED)";
      repeat_str "=" 60;
      "Folder: " ++ folder d;
      "" ] in
  let lines :=
    if truthy (filter_include d)
    then extend lines [ "Include extensions: "
                        ++ join ", " (members (filter_include d)) ]
    else lines in
  let lines :=
    if truthy (filter_exclude d)
    then extend lines [ "Exclude extensions: "
                        ++ join ", " (members (filter_exclude d)) ]
    else lines in
  let lines :=
    extend lines [ "Files skipped by filter: " ++ str_of_int (d_skipped d) ] in
  total <~ format_size (total_size d) ;;
  let lines :=
    extend lines
      [ "";
        "SUMMARY";
        repeat_str "-" 40;
        "Total files (after filter):  " ++ str_of_int (total_files d);
        "Total size  (after filter):  " ++ total;
        "" ] in
  largest <~ largest_lines (largest_file d) (largest_size d) ;;
  let lines := extend lines largest in
  let lines :=
    extend lines [ ""; "FILE TYPES BREAKDOWN"; repeat_str "-" 40 ] in
  rows <~ map_result (breakdown_line (by_extension d))
            (sorted (map fst (by_extension d))) ;;
  let lines := extend lines rows in
  let lines := extend lines [ repeat_str "=" 60 ] in
  Ok (join (String (ascii_of_N 10) "") lines).

(** The arguments parsed by [main]. *)
Record Args : Type := mkArgs
  { arg_folder : string;
    arg_ext : option (list string);
    arg_exclude : option (list string);
    arg_output : option string;
    arg_no_save : bool }.

Definition main (fs : FileSystem) (can_write : string -> bool) (args : Args)
  : IO N :=
  (if truthy (arg_ext args) && truthy (arg_exclude args)
   then ([UsageError "Use --ext or --exclude, not both at the same time."],
         Raise (SystemExit 2))
   else io_ret tt) ;;;
  scanned <<- try_except_NotADirectoryError
                (data <<- lift (scan_folder_filtered fs (arg_folder args)
                                  (arg_ext args) (arg_exclude args)) ;;
                 io_ret (inl data))
                (fun e => print ("Error: " ++ e) ;;; io_ret (inr 1)) ;;
  match scanned with
  | inr code => io_ret code
  | inl data =>
      report <<- io_of_result (build_filtered_report data) ;;
      print_and_save fs can_write "filtered_report_" (arg_folder args)
                     (arg_output args) (arg_no_save args) report
  end.

End filter_by_extension.

(** ** folder_scanner.py *)

Module folder_scanner.

Definition format_size (size_bytes : N) : result string :=
  if size_bytes <? 1024 then
    Ok (str_of_int size_bytes ++ " B")
  else if size_bytes <? 1024 ^ 2 then
    x <~ div_pow2 (Int size_bytes) 10 ;;
    s <~ format_2f x ;; Ok (s ++ " KB")
  else if size_bytes <? 1024 ^ 3 then
    x <~ div_pow2 (Int size_bytes) 20 ;;
    s <~ format_2f x ;; Ok (s ++ " MB")
  else
    x <~ div_pow2 (Int size_bytes) 30 ;;
    s <~ format_2f x ;; Ok (s ++ " GB").

(** [s.endswith("/")] *)
Fixpoint ends_with_sep (s : string) : bool :=
  match s with
  | EmptyString => false
  | String c EmptyString => Ascii.eqb c "/"
  | String _ s' => ends_with_sep s'
  end.

(** [os.path.join(a, b)] (POSIX). *)
Definition path_join (a b : string) : string :=
  if startswith b "/" then b
  else if String.eqb a "" || ends_with_sep a then a ++ b
  else a ++ "/" ++ b.

(** A [Counter], in insertion order. *)
Definition counter : Type := list (string * N).

(** [c[k] += 1] *)
Fixpoint incr (c : counter) (k : string) : counter :=
  match c with
  | [] => [(k, 1)]
  | (k', n) :: c' =>
      if String.eqb k' k then (k', n + 1) :: c' else (k', n) :: incr c' k
  end.

(** The local variables of [scan_folder]. *)
Record locals : Type := mkLocals
  { total_files : N;
    total_size : N;
    largest_file_name : option string;
    largest_file_size : N;
    extension_counter : counter }.

Definition init : locals := mkLocals 0 0 None 0 [].

(** The statements that account for one file of size [file_size]. *)
Definition account (st : locals) (entry : DirEntry) (file_size : N)
  : locals :=
  let total_files := total_files st + 1 in
  let total_size := total_size st + file_size in
  let '(largest_file_size, largest_file_name) :=
    if largest_file_size st <? file_size then (file_size, Some (d_name entry))
    else (largest_file_size st, largest_file_name st) in
  let ext := d_ext entry in
  let ext := if String.eqb ext "" then "(no extension)" else lower ext in
  mkLocals total_files total_size largest_file_name largest_file_size
           (incr (extension_counter st) ext).

(** The body of the [for entry in os.listdir(folder_path)] loop. *)
Definition body (folder_path : string) (st : locals) (entry : DirEntry)
  : M locals :=
  let full_path := path_join folder_path (d_name entry) in
  emit (EvIsFile full_path) ;;
  if negb (d_is_file entry) then ret st
  else
    emit (EvStat full_path) ;;
    match d_getsize entry with
    | None => raise OSError
    | Some file_size => ret (account st entry file_size)
    end.

Definition scan_folder (fs : FileSystem) (folder_path : string) : M locals :=
  d <- is_dir fs folder_path ;;
  if negb d
  then
    emit (EvPrint ("Error: '" ++ folder_path
                   ++ "' is not a valid directory.")) ;;
    raise (SystemExit 1)
  else
    entries <- listdir fs folder_path ;;
    for_each entries (body folder_path) init.

(** What [build_report] reads from outside its arguments: the answer of
    [os.path.abspath] and the fields of [datetime.now()]. *)
Record datetime : Type := mkDatetime
  { year : N; month : N; day : N; hour : N; minute : N; second : N }.

Record Env : Type := mkEnv
  { abspath : string -> string;
    now : datetime }.

(** [strftime('%Y-%m-%d %H:%M:%S')], for a year of four digits. *)
Definition strftime (t : datetime) : string :=
  str_of_int (year t) ++ "-" ++ two_digits (month t) ++ "-"
  ++ two_digits (day t) ++ " " ++ two_digits (hour t) ++ ":"
  ++ two_digits (minute t) ++ ":" ++ two_digits (second t).

(** Tuple order on [(ext, count)] items. *)
Definition item_leb (a b : string * N) : bool :=
  match String.compare (fst a) (fst b) with
  | Lt => true
  | Eq => snd a <=? snd b
  | Gt => false
  end.

Fixpoint insert_item (a : string * N) (l : counter) : counter :=
  match l with
  | [] => [a]
  | b :: l' => if item_leb a b then a :: l else b :: insert_item a l'
  end.

(** [sorted(c.items())] *)
Definition sorted_items (c : counter) : counter :=
  fold_right insert_item [] c.

(** The three characters that stand where a dash was meant, as the source
    file has them (U+00E2, U+20AC, U+201D). *)
Definition mojibake_dash : string :=
  String (ascii_of_N 195) (String (ascii_of_N 162)
  (String (ascii_of_N 226) (String (ascii_of_N 130) (String (ascii_of_N 172)
  (String (ascii_of_N 226) (String (ascii_of_N 128)
  (String (ascii_of_N 157) ""))))))).

Definition build_report (env : Env) (folder_path : string) (d : locals)
  : result string :=
  let lines :=
    [ repeat_str "=" 50;
      "        FOLDER SCAN REPORT";
      repeat_str "=" 50;
      "Folder scanned : " ++ abspath env folder_path;
      "Scan date      : " ++ strftime (now env);
      repeat_str "-" 50;
      "Total files    : " ++ str_of_int (total_files d) ] in
  total <~ format_size (total_size d) ;;
  let lines := extend lines [ "Total size     : " ++ total ] in
  largest <~
    match largest_file_name d with
    | Some (String c n) =>
        sz <~ format_size (largest_file_size d) ;;
        Ok ("Largest file   : " ++ String c n ++ " (" ++ sz ++ ")")
    | _ =>
        Ok ("Largest file   : (none " ++ mojibake_dash
            ++ " folder is empty)")
    end ;;
  let lines := extend lines [ largest ] in
  let lines := extend lines [ repeat_str "-" 50; "File types breakdown:" ] in
  let lines :=
    match extension_counter d with
    | _ :: _ =>
        extend lines
          (map (fun item => "  " ++ ljust (fst item) 20 ++ " : "
                            ++ str_of_int (snd item) ++ " file(s)")
               (sorted_items (extension_counter d)))
    | [] => extend lines [ "  (no files found)" ]
    end in
  let lines := extend lines [ repeat_str "=" 50 ] in
  Ok (join (String (ascii_of_N 10) "") lines).

(** [main], on the arguments [argv] of the command line. *)
Definition main (env : Env) (fs : FileSystem) (can_write : string -> bool)
    (argv : list string) : IO unit :=
  match argv with
  | [_; folder_path] =>
      data <<- lift (scan_folder fs folder_path) ;;
      report <<- io_of_result (build_report env folder_path data) ;;
      print report ;;;
      let report_file := "scan_report.txt" in
      write_text can_write report_file (report ++ String (ascii_of_N 10) "") ;;;
      print (String (ascii_of_N 10) "Report saved to: "
             ++ abspath env report_file)
  | _ =>
      print "Usage: python folder_scanner.py <folder_path>" ;;;
      io_raise (SystemExit 1)
  end.

End folder_scanner.

(** ** Notions used to state the properties *)

(** The pure effect of one iteration of the loop of
    [folder_report.scan_folder]. *)
Definition report_step (st : folder_report.locals) (e : Entry)
  : folder_report.locals :=
  if e_is_file e then folder_report.account st e (size_or_zero e) else st.

(** The calls one iteration of that loop makes. *)
Definition report_events (e : Entry) : list event :=
  EvIsFile (path_str (e_path e))
  :: (if e_is_file e then [EvStat (path_str (e_path e))] else []).

(** A regular file passes the (normalized) filters. *)
Definition passes (extensions exclude : option (list string)) (e : Entry)
  : bool :=
  let ext := filter_by_extension.ext_of e in
  negb (filter_by_extension.truthy extensions
        && negb (str_in ext (filter_by_extension.members extensions)))
  && negb (filter_by_extension.truthy exclude
           && str_in ext (filter_by_extension.members exclude)).

(** An entry is retained by a filtered scan: a regular file that passes. *)
Definition retained (extensions exclude : option (list string)) (e : Entry)
  : bool :=
  e_is_file e && passes extensions exclude e.

(** The pure effect of one iteration of the loop of
    [filter_by_extension.scan_folder_filtered]. *)
Definition filtered_step (extensions exclude : option (list string))
    (st : filter_by_extension.locals) (e : Entry)
  : filter_by_extension.locals :=
  if e_is_file e then
    if passes extensions exclude e
    then filter_by_extension.mkLocals
           (folder_report.account (filter_by_extension.base st) e
                                  (size_or_zero e))
           (filter_by_extension.skipped st)
    else filter_by_extension.mkLocals (filter_by_extension.base st)
                                      (filter_by_extension.skipped st + 1)
  else st.

Definition filtered_events (extensions exclude : option (list string))
    (e : Entry) : list event :=
  EvIsFile (path_str (e_path e))
  :: (if retained extensions exclude e
      then [EvStat (path_str (e_path e))] else []).

(** Sums over the buckets of [by_extension]. *)
Definition sum_counts (d : folder_report.buckets) : N :=
  fold_right (fun kb acc => folder_report.count (snd kb) + acc) 0 d.

Definition sum_sizes (d : folder_report.buckets) : N :=
  fold_right (fun kb acc => folder_report.size (snd kb) + acc) 0 d.

(** The bucket of an extension, the default when there is none. *)
Definition bucket_of (d : folder_report.buckets) (ext : string)
  : folder_report.bucket :=
  match folder_report.getitem d ext with
  | Ok b => b
  | Raise _ => folder_report.mkBucket 0 0
  end.

(** Bucket coherence of the local variables of a scan. *)
Definition coherent (st : folder_report.locals) : Prop :=
  sum_counts (folder_report.by_extension st) = folder_report.total_files st
  /\ sum_sizes (folder_report.by_extension st) = folder_report.total_size st.

(** The rule of the specification for the unit: starting from [u] with the
    value [n / 1024^k], move to the next unit while the value is at least
    1024 and a unit is left. *)
Fixpoint spec_scale (units : list string) (n k : N) (u : string)
  : N * string :=
  match units with
  | [] => (k, u)
  | u' :: rest =>
      if 1024 * 1024 ^ k <=? n then spec_scale rest n (k + 1) u' else (k, u)
  end.

(** The text the specification asks for: [n / 1024^k] with two decimals and
    the unit reached, [n] being held in binary64 once it has been divided. *)
Definition spec_format (n : N) : string :=
  let '(k, u) := spec_scale ["KB"; "MB"; "GB"; "TB"; "PB"] n 0 "B" in
  render_2f (round53 n) (10 * k) ++ " " ++ u.

(** The byte counts of a report all lie in the range of binary64. *)
Definition in_float_range (sizes : list N) : Prop :=
  Forall (fun n => n < 2 ^ 1024) sizes.

Definition report_sizes (d : folder_report.data) : list N :=
  folder_report.d_total_size d :: folder_report.d_largest_size d
  :: map (fun kb => folder_report.size (snd kb))
         (folder_report.d_by_extension d).

Definition filtered_sizes (d : filter_by_extension.data) : list N :=
  filter_by_extension.total_size d :: filter_by_extension.largest_size d
  :: map (fun kb => folder_report.size (snd kb))
         (filter_by_extension.by_extension d).

(** The final state of the two recursive walks, as folds over the entries
    in traversal order. *)
Definition report_final (fs : FileSystem) (folder_path : string)
  : folder_report.locals :=
  fold_left report_step (fs_rglob fs (fs_resolve fs folder_path))
            folder_report.init.

Definition filtered_final (fs : FileSystem) (folder_path : string)
    (extensions exclude : option (list string))
  : filter_by_extension.locals :=
  fold_left (filtered_step (filter_by_extension.normalize extensions)
                           (filter_by_extension.normalize exclude))
            (fs_rglob fs (fs_resolve fs folder_path))
            filter_by_extension.init.

Definition report_data (root : string) (st : folder_report.locals)
  : folder_report.data :=
  folder_report.mkData root
    (folder_report.total_files st) (folder_report.total_size st)
    (folder_report.largest_file st) (folder_report.largest_size st)
    (folder_report.by_extension st).

Definition filtered_data (root : string) (st : filter_by_extension.locals)
    (extensions exclude : option (list string)) : filter_by_extension.data :=
  filter_by_extension.mkData root
    (folder_report.total_files (filter_by_extension.base st))
    (folder_report.total_size (filter_by_extension.base st))
    (folder_report.largest_file (filter_by_extension.base st))
    (folder_report.largest_size (filter_by_extension.base st))
    (folder_report.by_extension (filter_by_extension.base st))
    (filter_by_extension.skipped st) extensions exclude.

(** The accounting of the two recursive scanners is the same: a walk that
    accounts for the entries a test [keep] retains. *)
Definition keep_step (keep : Entry -> bool) (st : folder_report.locals)
    (e : Entry) : folder_report.locals :=
  if keep e then folder_report.account st e (size_or_zero e) else st.

Definition walk (keep : Entry -> bool) (l : list Entry)
  : folder_report.locals :=
  fold_left (keep_step keep) l folder_report.init.

(** A regular file that the filters reject. *)
Definition rejected (extensions exclude : option (list string)) (e : Entry)
  : bool :=
  e_is_file e && negb (passes extensions exclude e).

(** Every entry of [l] that [keep] retains has size at most [b] (below [b]
    for the strict variant). *)
Definition sizes_le (keep : Entry -> bool) (b : N) (l : list Entry) : bool :=
  forallb (fun x => negb (keep x) || (size_or_zero x <=? b)) l.

Definition sizes_lt (keep : Entry -> bool) (b : N) (l : list Entry) : bool :=
  forallb (fun x => negb (keep x) || (size_or_zero x <? b)) l.

(** ** Sample directories *)

Definition sample_resolve (p : string) : string :=
  if String.eqb p "d" then "/d" else p.

Definition sample_is_dir (p : string) : bool := String.eqb p "/d".

Definition file_a (sz : option N) : Entry :=
  mkEntry (mkPath "/d/a.txt" "a.txt" ".txt") true sz.
Definition file_b (sz : option N) : Entry :=
  mkEntry (mkPath "/d/b.TXT" "b.TXT" ".TXT") true sz.
Definition file_c (sz : option N) : Entry :=
  mkEntry (mkPath "/d/c" "c" "") true sz.
Definition dir_sub : Entry :=
  mkEntry (mkPath "/d/sub" "sub" "") false (Some 4096).

(** [a.txt] and [b.TXT] of 20 bytes each, [c] of 5 bytes and a
    sub-directory, visited in this order. *)
Definition dir_tie : FileSystem :=
  mkFS sample_resolve sample_is_dir
    (fun _ => [file_a (Some 20); file_b (Some 20); file_c (Some 5); dir_sub])
    (fun _ => [mkDirEntry "a.txt" true (Some 20) ".txt";
               mkDirEntry "b.TXT" true (Some 20) ".TXT";
               mkDirEntry "c" true (Some 5) "";
               mkDirEntry "sub" false (Some 4096) ""]).

(** [a.txt] whose size cannot be read, then [b.TXT] of 7 bytes. *)
Definition dir_unreadable : FileSystem :=
  mkFS sample_resolve sample_is_dir
    (fun _ => [file_a None; file_b (Some 7)])
    (fun _ => [mkDirEntry "a.txt" true None ".txt";
               mkDirEntry "b.TXT" true (Some 7) ".TXT"]).

(** Two empty files. *)
Definition dir_empty_files : FileSystem :=
  mkFS sample_resolve sample_is_dir
    (fun _ => [file_a (Some 0); file_c (Some 0)])
    (fun _ => [mkDirEntry "a.txt" true (Some 0) ".txt";
               mkDirEntry "c" true (Some 0) ""]).

(** The result of scanning an empty directory [/d]. *)
Definition empty_report : folder_report.data :=
  report_data "/d" folder_report.init.

Definition empty_filtered : filter_by_extension.data :=
  filtered_data "/d" filter_by_extension.init None None.

(** Two moments one second apart, same working directory. *)
Definition env_at (s : N) : folder_scanner.Env :=
  folder_scanner.mkEnv (fun p => p)
    (folder_scanner.mkDatetime 2024 5 17 9 30 s).

(** ** Notions used for the further properties *)

(** Sum and maximum of the sizes of a list of entries (0 for a size that
    cannot be read). *)
Definition sum_of_sizes (l : list Entry) : N :=
  fold_right (fun e acc => size_or_zero e + acc) 0 l.

Definition max_of_sizes (l : list Entry) : N :=
  fold_right (fun e acc => N.max (size_or_zero e) acc) 0 l.

(** The entry is retained by [keep] and has the extension [ext]. *)
Definition kept_with_ext (keep : Entry -> bool) (ext : string) (e : Entry)
  : bool :=
  keep e && String.eqb (filter_by_extension.ext_of e) ext.


(** The same file system with another answer of the recursive walk. *)
Definition with_rglob (fs : FileSystem) (l : list Entry) : FileSystem :=
  mkFS (fs_resolve fs) (fs_is_dir fs) (fun _ => l) (fs_listdir fs).

(** The fields of a result of [folder_report.scan_folder] that do not
    depend on the order of the walk: the totals, the largest size and the
    bucket of an extension. *)
Definition order_free (d : folder_report.data) (ext : string)
  : N * N * N * folder_report.bucket :=
  (folder_report.d_total_files d, folder_report.d_total_size d,
   folder_report.d_largest_size d,
   bucket_of (folder_report.d_by_extension d) ext).

(** For [folder_scanner.scan_folder]: the size of a listed entry, the
    entries whose size can be read when it is asked for, the pure effect and
    the calls of one iteration, and the sum of a [Counter]. *)
Definition d_size (e : DirEntry) : N :=
  match d_getsize e with
  | Some n => n
  | None => 0
  end.

Definition readable (e : DirEntry) : bool :=
  negb (d_is_file e)
  || match d_getsize e with Some _ => true | None => false end.

Definition scanner_step (st : folder_scanner.locals) (e : DirEntry)
  : folder_scanner.locals :=
  if d_is_file e then folder_scanner.account st e (d_size e) else st.

Definition scanner_events (folder_path : string) (e : DirEntry)
  : list event :=
  EvIsFile (folder_scanner.path_join folder_path (d_name e))
  :: (if d_is_file e
      then [EvStat (folder_scanner.path_join folder_path (d_name e))]
      else []).

Definition scanner_walk (l : list DirEntry) : folder_scanner.locals :=
  fold_left scanner_step l folder_scanner.init.

Definition counter_total (c : folder_scanner.counter) : N :=
  fold_right (fun kn acc => snd kn + acc) 0 c.

Definition d_sum (l : list DirEntry) : N :=
  fold_right (fun e acc => d_size e + acc) 0 l.

Definition d_max (l : list DirEntry) : N :=
  fold_right (fun e acc => N.max (d_size e) acc) 0 l.

(** Every regular file of [l] has size at most [b] (below [b] for the
    strict variant). *)
Definition d_sizes_le (b : N) (l : list DirEntry) : bool :=
  forallb (fun x => negb (d_is_file x) || (d_size x <=? b)) l.

Definition d_sizes_lt (b : N) (l : list DirEntry) : bool :=
  forallb (fun x => negb (d_is_file x) || (d_size x <? b)) l.




(** What [print_and_save] does after the scan, for a report [s]: the
    actions and the outcome. *)
Definition save_actions (fs : FileSystem) (can_write : string -> bool)
    (prefix folder : string) (output : option string) (no_save : bool)
    (s : string) : list action :=
  let out := folder_report.out_path prefix folder output in
  let target := fs_resolve fs out in
  Call (EvPrint s)
  :: (if no_save then []
      else Call (EvResolve out)
           :: (if can_write target
               then [WriteText target s;
                     Call (EvPrint (String (ascii_of_N 10) "Report saved to: "
                                    ++ target))]
               else [])).

Definition save_outcome (fs : FileSystem) (can_write : string -> bool)
    (prefix folder : string) (output : option string) (no_save : bool)
  : result N :=
  if no_save then Ok 0
  else if can_write (fs_resolve fs
                       (folder_report.out_path prefix folder output))
       then Ok 0 else Raise OSError.



(** ** The loops as folds *)

Lemma for_each_pure {X S} (body : S -> X -> M S)
    (tr : X -> list event) (step : S -> X -> S) :
  (forall st x, body st x = (tr x, Ok (step st x))) ->
  forall xs st,
    for_each xs body st = (flat_map tr xs, Ok (fold_left step xs st)).
Proof.
  intros Hbody xs. induction xs as [|x xs IH]; intros st.
  - reflexivity.
  - cbn [for_each flat_map fold_left]. rewrite Hbody. cbn [bind].
    rewrite IH. reflexivity.
Qed.

Lemma report_body_pure (st : folder_report.locals) (e : Entry) :
  folder_report.body st e = (report_events e, Ok (report_step st e)).
Proof.
  unfold folder_report.body, report_events, report_step, is_file, stat_size,
    size_or_zero.
  destruct (e_is_file e); [destruct (e_stat e)|]; reflexivity.
Qed.

Lemma filtered_body_pure extensions exclude
    (st : filter_by_extension.locals) (e : Entry) :
  filter_by_extension.body extensions exclude st e
  = (filtered_events extensions exclude e,
     Ok (filtered_step extensions exclude st e)).
Proof.
  unfold filter_by_extension.body, filtered_events, filtered_step, retained,
    passes, is_file, stat_size, size_or_zero.
  destruct (e_is_file e); [|reflexivity]. cbn.
  destruct (filter_by_extension.truthy extensions
            && negb (str_in (filter_by_extension.ext_of e)
                            (filter_by_extension.members extensions)));
    [reflexivity|].
  destruct (filter_by_extension.truthy exclude
            && str_in (filter_by_extension.ext_of e)
                      (filter_by_extension.members exclude));
    [reflexivity|].
  destruct (e_stat e); reflexivity.
Qed.

Lemma report_scan_dir fs folder_path :
  fs_is_dir fs (fs_resolve fs folder_path) = true ->
  folder_report.scan_folder fs folder_path
  = ([EvResolve folder_path; EvIsDir (fs_resolve fs folder_path);
      EvWalk (fs_resolve fs folder_path)]
     ++ flat_map report_events (fs_rglob fs (fs_resolve fs folder_path)),
     Ok (report_data (fs_resolve fs folder_path)
                     (report_final fs folder_path)))%list.
Proof.
  intros Hdir.
  unfold folder_report.scan_folder, resolve, is_dir, rglob. cbn.
  rewrite Hdir. cbn.
  rewrite (for_each_pure _ _ _ report_body_pure). cbn.
  rewrite app_nil_r. reflexivity.
Qed.

Lemma report_scan_not_dir fs folder_path :
  fs_is_dir fs (fs_resolve fs folder_path) = false ->
  folder_report.scan_folder fs folder_path
  = ([EvResolve folder_path; EvIsDir (fs_resolve fs folder_path)],
     Raise (NotADirectoryError ("Not a directory: " ++ folder_path))).
Proof.
  intros Hdir.
  unfold folder_report.scan_folder, resolve, is_dir. cbn.
  rewrite Hdir. reflexivity.
Qed.

Lemma filtered_scan_dir fs folder_path extensions exclude :
  fs_is_dir fs (fs_resolve fs folder_path) = true ->
  filter_by_extension.scan_folder_filtered fs folder_path extensions exclude
  = ([EvResolve folder_path; EvIsDir (fs_resolve fs folder_path);
      EvWalk (fs_resolve fs folder_path)]
     ++ flat_map (filtered_events (filter_by_extension.normalize extensions)
                                  (filter_by_extension.normalize exclude))
                 (fs_rglob fs (fs_resolve fs folder_path)),
     Ok (filtered_data (fs_resolve fs folder_path)
           (filtered_final fs folder_path extensions exclude)
           (filter_by_extension.normalize extensions)
           (filter_by_extension.normalize exclude)))%list.
Proof.
  intros Hdir.
  unfold filter_by_extension.scan_folder_filtered, resolve, is_dir, rglob.
  cbn. rewrite Hdir. cbn.
  rewrite (for_each_pure _ _ _ (filtered_body_pure _ _)). cbn.
  rewrite app_nil_r. reflexivity.
Qed.

Lemma filtered_scan_not_dir fs folder_path extensions exclude :
  fs_is_dir fs (fs_resolve fs folder_path) = false ->
  filter_by_extension.scan_folder_filtered fs folder_path extensions exclude
  = ([EvResolve folder_path; EvIsDir (fs_resolve fs folder_path)],
     Raise (NotADirectoryError ("Not a directory: " ++ folder_path))).
Proof.
  intros Hdir.
  unfold filter_by_extension.scan_folder_filtered, resolve, is_dir. cbn.
  rewrite Hdir. reflexivity.
Qed.

Lemma scanner_scan_not_dir fs folder_path :
  fs_is_dir fs folder_path = false ->
  folder_scanner.scan_folder fs folder_path
  = ([EvIsDir folder_path;
      EvPrint ("Error: '" ++ folder_path ++ "' is not a valid directory.")],
     Raise (SystemExit 1)).
Proof.
  intros Hdir. unfold folder_scanner.scan_folder, is_dir. cbn.
  rewrite Hdir. reflexivity.
Qed.

(** ** Invalid root (C3) *)

(** The walk of [folder_scanner.scan_folder] once the directory test has
    passed. *)
Lemma scanner_scan_dir fs folder_path :
  fs_is_dir fs folder_path = true ->
  folder_scanner.scan_folder fs folder_path
  = (EvIsDir folder_path :: EvWalk folder_path
       :: trace (for_each (fs_listdir fs folder_path)
                          (folder_scanner.body folder_path)
                          folder_scanner.init),
     outcome (for_each (fs_listdir fs folder_path)
                       (folder_scanner.body folder_path)
                       folder_scanner.init)).
Proof.
  intros Hdir. unfold folder_scanner.scan_folder, is_dir, listdir. cbn.
  rewrite Hdir. cbn.
  destruct (for_each _ _ _) as [t r]. reflexivity.
Qed.


(** ** Extension normalization (C6) *)










(** ** The accounting walk *)

Section Walk.

Variable keep : Entry -> bool.

Lemma walk_snoc (l : list Entry) (x : Entry) :
  walk keep (l ++ [x]) = keep_step keep (walk keep l) x.
Proof. unfold walk. now rewrite fold_left_app. Qed.

Lemma account_total_files st e sz :
  folder_report.total_files (folder_report.account st e sz)
  = folder_report.total_files st + 1.
Proof.
  unfold folder_report.account.
  now destruct (folder_report.largest_size st <=? sz).
Qed.

Lemma account_total_size st e sz :
  folder_report.total_size (folder_report.account st e sz)
  = folder_report.total_size st + sz.
Proof.
  unfold folder_report.account.
  now destruct (folder_report.largest_size st <=? sz).
Qed.

Lemma account_by_extension st e sz :
  folder_report.by_extension (folder_report.account st e sz)
  = folder_report.dd_update
      (folder_report.dd_update (folder_report.by_extension st)
         (filter_by_extension.ext_of e) folder_report.add_count)
      (filter_by_extension.ext_of e) (folder_report.add_size sz).
Proof.
  unfold folder_report.account.
  now destruct (folder_report.largest_size st <=? sz).
Qed.

Lemma account_largest st e sz :
  (folder_report.largest_size st <= sz
   /\ folder_report.largest_file (folder_report.account st e sz)
      = Some (e_path e)
   /\ folder_report.largest_size (folder_report.account st e sz) = sz)
  \/ (sz < folder_report.largest_size st
      /\ folder_report.largest_file (folder_report.account st e sz)
         = folder_report.largest_file st
      /\ folder_report.largest_size (folder_report.account st e sz)
         = folder_report.largest_size st).
Proof.
  unfold folder_report.account.
  destruct (N.leb_spec (folder_report.largest_size st) sz); cbn; auto.
Qed.

Lemma sum_counts_cons k b d :
  sum_counts ((k, b) :: d) = folder_report.count b + sum_counts d.
Proof. reflexivity. Qed.

Lemma sum_sizes_cons k b d :
  sum_sizes ((k, b) :: d) = folder_report.size b + sum_sizes d.
Proof. reflexivity. Qed.

Lemma sum_counts_update d k f c :
  (forall b, folder_report.count (f b) = folder_report.count b + c) ->
  sum_counts (folder_report.dd_update d k f) = sum_counts d + c.
Proof.
  intros Hf. induction d as [|[k' b] d IH]; cbn [folder_report.dd_update].
  - rewrite sum_counts_cons, Hf. cbn. lia.
  - destruct (String.eqb k' k); rewrite !sum_counts_cons;
      [rewrite Hf|rewrite IH]; lia.
Qed.

Lemma sum_sizes_update d k f c :
  (forall b, folder_report.size (f b) = folder_report.size b + c) ->
  sum_sizes (folder_report.dd_update d k f) = sum_sizes d + c.
Proof.
  intros Hf. induction d as [|[k' b] d IH]; cbn [folder_report.dd_update].
  - rewrite sum_sizes_cons, Hf. cbn. lia.
  - destruct (String.eqb k' k); rewrite !sum_sizes_cons;
      [rewrite Hf|rewrite IH]; lia.
Qed.

Lemma account_coherent st e sz :
  coherent st -> coherent (folder_report.account st e sz).
Proof.
  intros [Hc Hs]. unfold coherent.
  rewrite account_total_files, account_total_size, account_by_extension.
  split.
  - rewrite (sum_counts_update _ _ _ 0), (sum_counts_update _ _ _ 1).
    + lia.
    + reflexivity.
    + intros b. cbn. lia.
  - rewrite (sum_sizes_update _ _ _ sz), (sum_sizes_update _ _ _ 0).
    + lia.
    + intros b. cbn. lia.
    + reflexivity.
Qed.

Lemma walk_coherent (l : list Entry) : coherent (walk keep l).
Proof.
  induction l as [|x l IH] using rev_ind.
  - split; reflexivity.
  - rewrite walk_snoc. unfold keep_step.
    destruct (keep x); [now apply account_coherent|exact IH].
Qed.

Lemma walk_total_files (l : list Entry) :
  folder_report.total_files (walk keep l)
  = N.of_nat (length (filter keep l)).
Proof.
  induction l as [|x l IH] using rev_ind; [reflexivity|].
  rewrite walk_snoc, filter_app, length_app. unfold keep_step. cbn.
  destruct (keep x); cbn.
  - rewrite account_total_files, IH. lia.
  - rewrite IH. f_equal. lia.
Qed.

Lemma walk_total_size (l : list Entry) :
  folder_report.total_size (walk keep l)
  = fold_right (fun e acc => size_or_zero e + acc) 0 (filter keep l).
Proof.
  induction l as [|x l IH] using rev_ind; [reflexivity|].
  rewrite walk_snoc, filter_app, fold_right_app. unfold keep_step. cbn.
  destruct (keep x); cbn.
  - rewrite account_total_size, IH.
    generalize (filter keep l). intros k.
    induction k as [|y k IHk]; cbn; lia.
  - exact IH.
Qed.

(** What links the largest file to the count of files: it is unset only
    as long as nothing has been accounted for. *)
Lemma walk_largest_inv (l : list Entry) :
  (folder_report.largest_file (walk keep l) = None ->
   folder_report.total_files (walk keep l) = 0
   /\ folder_report.largest_size (walk keep l) = 0)
  /\ (folder_report.total_files (walk keep l) = 0 ->
      folder_report.largest_file (walk keep l) = None).
Proof.
  induction l as [|x l [IH1 IH2]] using rev_ind; [now split|].
  rewrite walk_snoc. unfold keep_step.
  destruct (keep x); [|now split].
  rewrite account_total_files.
  destruct (account_largest (walk keep l) x (size_or_zero x))
    as [(_ & -> & _)|(Hlt & -> & _)].
  - split; [discriminate|lia].
  - split; [|lia]. intros HN. destruct (IH1 HN) as [_ E]. lia.
Qed.

Lemma walk_largest_none (l : list Entry) :
  folder_report.largest_file (walk keep l) = None
  <-> folder_report.total_files (walk keep l) = 0.
Proof.
  destruct (walk_largest_inv l) as [H1 H2].
  split; [intros H; now destruct (H1 H)|exact H2].
Qed.

Lemma walk_largest_some (l : list Entry) (p : Path) :
  folder_report.largest_file (walk keep l) = Some p ->
  exists e, In e l /\ keep e = true /\ e_path e = p
            /\ folder_report.largest_size (walk keep l) = size_or_zero e.
Proof.
  induction l as [|x l IH] using rev_ind; [discriminate|].
  rewrite walk_snoc. unfold keep_step.
  destruct (keep x) eqn:Hk.
  - destruct (account_largest (walk keep l) x (size_or_zero x))
      as [(_ & -> & ->)|(_ & -> & ->)].
    + intros [= <-]. exists x. rewrite in_app_iff. cbn. auto.
    + intros H. destruct (IH H) as (e & Hin & He).
      exists e. rewrite in_app_iff. auto.
  - intros H. destruct (IH H) as (e & Hin & He).
    exists e. rewrite in_app_iff. auto.
Qed.

Lemma walk_largest_bound (b : N) (l : list Entry) :
  sizes_le keep b l = true ->
  folder_report.largest_size (walk keep l) <= b.
Proof.
  unfold sizes_le.
  induction l as [|x l IH] using rev_ind; [cbn; lia|].
  rewrite forallb_app. cbn. rewrite andb_true_r.
  intros [Hl Hx]%andb_prop. specialize (IH Hl).
  rewrite walk_snoc. unfold keep_step.
  destruct (keep x); [|exact IH]. cbn in Hx. apply N.leb_le in Hx.
  destruct (account_largest (walk keep l) x (size_or_zero x))
    as [(_ & _ & ->)|(_ & _ & ->)]; assumption.
Qed.

(** Entries smaller than the running largest leave it in place. *)
Lemma keep_smaller (l : list Entry) (st : folder_report.locals) :
  sizes_lt keep (folder_report.largest_size st) l = true ->
  folder_report.largest_file (fold_left (keep_step keep) l st)
  = folder_report.largest_file st
  /\ folder_report.largest_size (fold_left (keep_step keep) l st)
     = folder_report.largest_size st.
Proof.
  unfold sizes_lt. revert st.
  induction l as [|x l IH]; intros st; [now split|].
  cbn [forallb fold_left]. intros [Hx Hl]%andb_prop.
  assert (Hst : folder_report.largest_file (keep_step keep st x)
                = folder_report.largest_file st
                /\ folder_report.largest_size (keep_step keep st x)
                   = folder_report.largest_size st).
  { unfold keep_step. destruct (keep x); [|now split].
    cbn in Hx. apply N.ltb_lt in Hx.
    destruct (account_largest st x (size_or_zero x))
      as [(Hle & _)|(_ & Ef & Es)]; [lia|now split]. }
  destruct Hst as [Ef Es]. rewrite <- Ef, <- Es.
  apply IH. now rewrite Es.
Qed.

(** The tie-break of the recursive scanners: among the retained entries of
    maximal size, the one visited last is the largest file. *)
Lemma walk_last_maximal (l1 l2 : list Entry) (e : Entry) :
  keep e = true ->
  sizes_le keep (size_or_zero e) l1 = true ->
  sizes_lt keep (size_or_zero e) l2 = true ->
  folder_report.largest_file (walk keep (l1 ++ e :: l2)) = Some (e_path e)
  /\ folder_report.largest_size (walk keep (l1 ++ e :: l2))
     = size_or_zero e.
Proof.
  intros Hk H1 H2. unfold walk. rewrite fold_left_app. cbn [fold_left].
  fold (walk keep l1).
  pose proof (walk_largest_bound _ _ H1) as Hb.
  assert (Hst : folder_report.largest_file (keep_step keep (walk keep l1) e)
                = Some (e_path e)
                /\ folder_report.largest_size
                     (keep_step keep (walk keep l1) e) = size_or_zero e).
  { unfold keep_step. rewrite Hk.
    destruct (account_largest (walk keep l1) e (size_or_zero e))
      as [(_ & Ef & Es)|(Hlt & _)]; [now split|lia]. }
  destruct Hst as [Ef Es]. rewrite <- Ef, <- Es.
  apply keep_smaller. now rewrite Es.
Qed.

End Walk.

(** ** The two recursive scanners as accounting walks *)

Lemma filtered_fold_base extensions exclude (l : list Entry)
    (st : filter_by_extension.locals) :
  filter_by_extension.base
    (fold_left (filtered_step extensions exclude) l st)
  = fold_left (keep_step (retained extensions exclude)) l
              (filter_by_extension.base st).
Proof.
  revert st. induction l as [|x l IH]; intros st; [reflexivity|].
  cbn [fold_left]. rewrite IH. f_equal.
  unfold filtered_step, keep_step, retained.
  destruct (e_is_file x); [|reflexivity].
  now destruct (passes extensions exclude x).
Qed.

Lemma filtered_fold_skipped extensions exclude (l : list Entry)
    (st : filter_by_extension.locals) :
  filter_by_extension.skipped
    (fold_left (filtered_step extensions exclude) l st)
  = filter_by_extension.skipped st
    + N.of_nat (length (filter (rejected extensions exclude) l)).
Proof.
  revert st. induction l as [|x l IH]; intros st; [cbn; lia|].
  cbn [fold_left filter]. rewrite IH.
  unfold filtered_step, rejected.
  destruct (e_is_file x); [|cbn; lia].
  destruct (passes extensions exclude x); cbn [negb andb length
    filter_by_extension.skipped]; lia.
Qed.

Lemma filtered_final_base fs folder_path extensions exclude :
  filter_by_extension.base
    (filtered_final fs folder_path extensions exclude)
  = walk (retained (filter_by_extension.normalize extensions)
                   (filter_by_extension.normalize exclude))
         (fs_rglob fs (fs_resolve fs folder_path)).
Proof. unfold filtered_final. now rewrite filtered_fold_base. Qed.

Lemma filtered_final_skipped fs folder_path extensions exclude :
  filter_by_extension.skipped
    (filtered_final fs folder_path extensions exclude)
  = N.of_nat
      (length (filter (rejected (filter_by_extension.normalize extensions)
                                (filter_by_extension.normalize exclude))
                      (fs_rglob fs (fs_resolve fs folder_path)))).
Proof. unfold filtered_final. now rewrite filtered_fold_skipped. Qed.

Lemma report_outcome fs folder_path :
  fs_is_dir fs (fs_resolve fs folder_path) = true ->
  outcome (folder_report.scan_folder fs folder_path)
  = Ok (report_data (fs_resolve fs folder_path)
          (walk e_is_file (fs_rglob fs (fs_resolve fs folder_path)))).
Proof. intros H. now rewrite (report_scan_dir _ _ H). Qed.

Lemma filtered_outcome fs folder_path extensions exclude :
  fs_is_dir fs (fs_resolve fs folder_path) = true ->
  outcome (filter_by_extension.scan_folder_filtered fs folder_path
             extensions exclude)
  = Ok (filtered_data (fs_resolve fs folder_path)
          (filtered_final fs folder_path extensions exclude)
          (filter_by_extension.normalize extensions)
          (filter_by_extension.normalize exclude)).
Proof. intros H. now rewrite (filtered_scan_dir _ _ _ _ H). Qed.

(** ** Largest-file tie-break (C1) *)

(** C1, amended.  In [folder_report.scan_folder] and
    [filter_by_extension.scan_folder_filtered] a file whose size equals the
    running largest replaces it: when the walk visits a retained file [e],
    no retained file before it is larger and every retained file after it
    is smaller, the scan reports [e] as the largest file, with its size.
    So among retained files of equal maximal size the one visited last is
    reported. *)
Theorem C1_last_of_equal_maximal_wins fs folder_path l1 e l2 :
  fs_is_dir fs (fs_resolve fs folder_path) = true ->
  fs_rglob fs (fs_resolve fs folder_path) = (l1 ++ e :: l2)%list ->
  (e_is_file e = true ->
   sizes_le e_is_file (size_or_zero e) l1 = true ->
   sizes_lt e_is_file (size_or_zero e) l2 = true ->
   exists d,
     outcome (folder_report.scan_folder fs folder_path) = Ok d
     /\ folder_report.d_largest_file d = Some (e_path e)
     /\ folder_report.d_largest_size d = size_or_zero e)
  /\ (forall extensions exclude,
      let keep := retained (filter_by_extension.normalize extensions)
                           (filter_by_extension.normalize exclude) in
      keep e = true ->
      sizes_le keep (size_or_zero e) l1 = true ->
      sizes_lt keep (size_or_zero e) l2 = true ->
      exists d,
        outcome (filter_by_extension.scan_folder_filtered fs folder_path
                   extensions exclude) = Ok d
        /\ filter_by_extension.largest_file d = Some (e_path e)
        /\ filter_by_extension.largest_size d = size_or_zero e).
Proof.
  intros Hdir Hl. split.
  - intros Hk H1 H2. eexists. split; [now apply report_outcome|].
    cbn. rewrite Hl. now apply walk_last_maximal.
  - intros extensions exclude keep Hk H1 H2.
    eexists. split; [now apply filtered_outcome|].
    cbn. rewrite filtered_final_base, Hl. now apply walk_last_maximal.
Qed.

Lemma C1_last_of_equal_maximal_wins_witness :
  (exists d,
     outcome (folder_report.scan_folder dir_tie "d") = Ok d
     /\ folder_report.d_largest_file d = Some (e_path (file_b (Some 20)))
     /\ folder_report.d_largest_size d = 20)
  /\ (exists d,
        outcome (filter_by_extension.scan_folder_filtered dir_tie "d"
                   (Some ["txt"]) None) = Ok d
        /\ filter_by_extension.largest_file d
           = Some (e_path (file_b (Some 20)))
        /\ filter_by_extension.largest_size d = 20).
Proof.
  destruct (C1_last_of_equal_maximal_wins dir_tie "d"
              [file_a (Some 20)] (file_b (Some 20)) [file_c (Some 5); dir_sub]
              eq_refl eq_refl) as [Hrep Hfil].
  split.
  - apply Hrep; reflexivity.
  - apply (Hfil (Some ["txt"]) None); reflexivity.
Defined.

(** [folder_scanner.scan_folder] compares with "greater than": of [a.txt]
    and [b.TXT], both of the maximal size 20 and visited in this order, it
    reports [a.txt], the one visited first. *)
Lemma C1_scanner_keeps_first :
  exists d,
    outcome (folder_scanner.scan_folder dir_tie "/d") = Ok d
    /\ folder_scanner.largest_file_name d = Some "a.txt"
    /\ folder_scanner.largest_file_name d <> Some "b.TXT"
    /\ folder_scanner.largest_file_size d = 20.
Proof.
  eexists. split; [reflexivity|]. cbn.
  repeat split; [discriminate].
Qed.

(** ** Largest file and file count (C8) *)

(** C8.  In the result of [folder_report.scan_folder] and of
    [filter_by_extension.scan_folder_filtered] the largest file is [None]
    exactly when the file count is 0; when it is set, it is the path of a
    retained entry of the walk and the largest size is the size of that
    entry. *)
Theorem C8_largest_none_iff_no_file fs folder_path extensions exclude :
  fs_is_dir fs (fs_resolve fs folder_path) = true ->
  (exists d,
     outcome (folder_report.scan_folder fs folder_path) = Ok d
     /\ (folder_report.d_largest_file d = None
         <-> folder_report.d_total_files d = 0)
     /\ (forall p, folder_report.d_largest_file d = Some p ->
         exists e, In e (fs_rglob fs (fs_resolve fs folder_path))
                   /\ e_is_file e = true /\ e_path e = p
                   /\ folder_report.d_largest_size d = size_or_zero e))
  /\ (exists d,
        outcome (filter_by_extension.scan_folder_filtered fs folder_path
                   extensions exclude) = Ok d
        /\ (filter_by_extension.largest_file d = None
            <-> filter_by_extension.total_files d = 0)
        /\ (forall p, filter_by_extension.largest_file d = Some p ->
            exists e, In e (fs_rglob fs (fs_resolve fs folder_path))
                      /\ retained (filter_by_extension.normalize extensions)
                                  (filter_by_extension.normalize exclude) e
                         = true
                      /\ e_path e = p
                      /\ filter_by_extension.largest_size d
                         = size_or_zero e)).
Proof.
  intros Hdir. split.
  - eexists. split; [now apply report_outcome|]. cbn. split.
    + apply walk_largest_none.
    + apply walk_largest_some.
  - eexists. split; [now apply filtered_outcome|]. cbn.
    rewrite filtered_final_base. split.
    + apply walk_largest_none.
    + apply walk_largest_some.
Qed.

Lemma C8_largest_none_iff_no_file_witness :
  (exists d,
     outcome (folder_report.scan_folder dir_empty_files "d") = Ok d
     /\ folder_report.d_total_files d = 2
     /\ folder_report.d_largest_size d = 0
     /\ folder_report.d_largest_file d <> None)
  /\ (exists d,
        outcome (filter_by_extension.scan_folder_filtered dir_empty_files "d"
                   (Some [".bin"]) None) = Ok d
        /\ filter_by_extension.total_files d = 0
        /\ filter_by_extension.largest_file d = None).
Proof.
  destruct (C8_largest_none_iff_no_file dir_empty_files "d"
              (Some [".bin"]) None eq_refl)
    as [(d1 & E1 & H1 & _) (d2 & E2 & H2 & _)].
  split.
  - exists d1. split; [exact E1|].
    injection E1 as <-. repeat split.
    intros HN. apply H1 in HN. discriminate HN.
  - exists d2. split; [exact E2|].
    injection E2 as <-. split; [reflexivity|].
    apply H2. reflexivity.
Defined.

(** ** Bucket coherence (C9) *)

(** C9.  In [folder_report.scan_folder] and in
    [filter_by_extension.scan_folder_filtered], after the loop has processed
    any initial part [pre] of the walk the counts of the buckets sum to
    [total_files] and their sizes sum to [total_size]; the same holds in the
    result returned. *)
Theorem C9_bucket_coherence fs folder_path extensions exclude :
  fs_is_dir fs (fs_resolve fs folder_path) = true ->
  (forall pre post,
     fs_rglob fs (fs_resolve fs folder_path) = (pre ++ post)%list ->
     (exists st,
        outcome (for_each pre folder_report.body folder_report.init) = Ok st
        /\ coherent st)
     /\ (exists st,
          outcome (for_each pre
                     (filter_by_extension.body
                        (filter_by_extension.normalize extensions)
                        (filter_by_extension.normalize exclude))
                     filter_by_extension.init) = Ok st
          /\ coherent (filter_by_extension.base st)))
  /\ (exists d,
        outcome (folder_report.scan_folder fs folder_path) = Ok d
        /\ sum_counts (folder_report.d_by_extension d)
           = folder_report.d_total_files d
        /\ sum_sizes (folder_report.d_by_extension d)
           = folder_report.d_total_size d)
  /\ (exists d,
        outcome (filter_by_extension.scan_folder_filtered fs folder_path
                   extensions exclude) = Ok d
        /\ sum_counts (filter_by_extension.by_extension d)
           = filter_by_extension.total_files d
        /\ sum_sizes (filter_by_extension.by_extension d)
           = filter_by_extension.total_size d).
Proof.
  intros Hdir. split; [|split].
  - intros pre post _. split.
    + rewrite (for_each_pure _ _ _ report_body_pure).
      eexists. split; [reflexivity|]. apply (walk_coherent e_is_file).
    + rewrite (for_each_pure _ _ _ (filtered_body_pure _ _)).
      eexists. split; [reflexivity|].
      rewrite filtered_fold_base. apply walk_coherent.
  - eexists. split; [now apply report_outcome|].
    apply (walk_coherent e_is_file).
  - eexists. split; [now apply filtered_outcome|]. cbn.
    rewrite filtered_final_base. apply walk_coherent.
Qed.

Lemma C9_bucket_coherence_witness :
  exists d,
    outcome (folder_report.scan_folder dir_tie "d") = Ok d
    /\ sum_counts (folder_report.d_by_extension d)
       = folder_report.d_total_files d
    /\ sum_sizes (folder_report.d_by_extension d)
       = folder_report.d_total_size d.
Proof.
  exact (proj1 (proj2 (C9_bucket_coherence dir_tie "d" None None eq_refl))).
Defined.

(** ** Skipped entries (C10) *)

Lemma filter_split {A} (a b c : A -> bool) (l : list A) :
  (forall x, c x = a x || b x) ->
  (forall x, a x && b x = false) ->
  (length (filter a l) + length (filter b l) = length (filter c l))%nat.
Proof.
  intros Hc Hab. induction l as [|x l IH]; [reflexivity|].
  cbn [filter]. rewrite Hc. specialize (Hab x).
  destruct (a x), (b x); cbn in *; try discriminate; lia.
Qed.

(** C10.  In [filter_by_extension.scan_folder_filtered] an iteration on a
    regular file that the filters reject makes no call besides [is_file]
    and changes only [skipped], which it increments by 1; in the result
    [total_files] counts the retained entries, [skipped] the rejected ones,
    and together they count the regular files of the walk. *)
Theorem C10_skipped_frame fs folder_path extensions exclude :
  fs_is_dir fs (fs_resolve fs folder_path) = true ->
  let inc := filter_by_extension.normalize extensions in
  let exc := filter_by_extension.normalize exclude in
  let entries := fs_rglob fs (fs_resolve fs folder_path) in
  (forall st e,
     rejected inc exc e = true ->
     filter_by_extension.body inc exc st e
     = ([EvIsFile (path_str (e_path e))],
        Ok (filter_by_extension.mkLocals
              (filter_by_extension.base st)
              (filter_by_extension.skipped st + 1))))
  /\ exists d,
       outcome (filter_by_extension.scan_folder_filtered fs folder_path
                  extensions exclude) = Ok d
       /\ filter_by_extension.total_files d
          = N.of_nat (length (filter (retained inc exc) entries))
       /\ filter_by_extension.d_skipped d
          = N.of_nat (length (filter (rejected inc exc) entries))
       /\ filter_by_extension.total_files d
          + filter_by_extension.d_skipped d
          = N.of_nat (length (filter e_is_file entries)).
Proof.
  intros Hdir inc exc entries. split.
  - intros st e Hrej. rewrite filtered_body_pure.
    unfold filtered_events, filtered_step, retained.
    unfold rejected in Hrej.
    destruct (e_is_file e); [|discriminate].
    destruct (passes inc exc e); [discriminate|reflexivity].
  - eexists. split; [now apply filtered_outcome|].
    cbn [filtered_data filter_by_extension.total_files
         filter_by_extension.d_skipped].
    rewrite filtered_final_base, filtered_final_skipped, walk_total_files.
    fold inc exc entries.
    split; [reflexivity|split; [reflexivity|]].
    rewrite <- Nat2N.inj_add. f_equal.
    apply filter_split; intros x; unfold retained, rejected;
      destruct (e_is_file x), (passes inc exc x); reflexivity.
Qed.

Lemma C10_skipped_frame_witness :
  exists d,
    outcome (filter_by_extension.scan_folder_filtered dir_tie "d"
               None (Some ["TXT"])) = Ok d
    /\ filter_by_extension.total_files d = 1
    /\ filter_by_extension.d_skipped d = 2
    /\ filter_by_extension.total_files d + filter_by_extension.d_skipped d
       = 3.
Proof.
  exact (proj2 (C10_skipped_frame dir_tie "d" None (Some ["TXT"]) eq_refl)).
Defined.

(** ** Include and exclude are complementary (C5) *)

Lemma passes_include (S : list string) (e : Entry) :
  S <> [] ->
  passes (filter_by_extension.normalize (Some S)) None e
  = str_in (filter_by_extension.ext_of e)
           (filter_by_extension.normalize_list S).
Proof.
  intros HS. destruct S as [|x S]; [contradiction|].
  unfold passes. cbn. now rewrite andb_true_r, negb_involutive.
Qed.

Lemma passes_exclude (S : list string) (e : Entry) :
  S <> [] ->
  passes None (filter_by_extension.normalize (Some S)) e
  = negb (str_in (filter_by_extension.ext_of e)
                 (filter_by_extension.normalize_list S)).
Proof.
  intros HS. destruct S as [|x S]; [contradiction|].
  unfold passes. reflexivity.
Qed.

(** C5.  For a directory and a non-empty list [S] of extensions, the file
    count of the scan that includes [S] plus the file count of the scan that
    excludes [S] is the file count of the scan without filter, which is also
    the file count of [folder_report.scan_folder]. *)
Theorem C5_include_exclude_complementary fs folder_path (S : list string) :
  S <> [] ->
  fs_is_dir fs (fs_resolve fs folder_path) = true ->
  exists d_inc d_exc d_all d_rep,
    outcome (filter_by_extension.scan_folder_filtered fs folder_path
               (Some S) None) = Ok d_inc
    /\ outcome (filter_by_extension.scan_folder_filtered fs folder_path
                  None (Some S)) = Ok d_exc
    /\ outcome (filter_by_extension.scan_folder_filtered fs folder_path
                  None None) = Ok d_all
    /\ outcome (folder_report.scan_folder fs folder_path) = Ok d_rep
    /\ filter_by_extension.total_files d_inc
       + filter_by_extension.total_files d_exc
       = filter_by_extension.total_files d_all
    /\ filter_by_extension.total_files d_all
       = folder_report.d_total_files d_rep.
Proof.
  intros HS Hdir. do 4 eexists.
  split; [now apply filtered_outcome|].
  split; [now apply filtered_outcome|].
  split; [now apply filtered_outcome|].
  split; [now apply report_outcome|].
  cbn [filtered_data filter_by_extension.total_files report_data
       folder_report.d_total_files].
  rewrite !filtered_final_base, !walk_total_files.
  change (filter_by_extension.normalize None) with (@None (list string)).
  split.
  - rewrite <- Nat2N.inj_add. f_equal.
    apply filter_split; intros x; unfold retained;
      rewrite (passes_include S x HS), (passes_exclude S x HS);
      destruct (e_is_file x), (str_in _ _); reflexivity.
  - f_equal. f_equal. apply filter_ext. intros x. unfold retained.
    now rewrite andb_true_r.
Qed.

Lemma C5_include_exclude_complementary_witness :
  exists d_inc d_exc d_all d_rep,
    outcome (filter_by_extension.scan_folder_filtered dir_tie "d"
               (Some ["txt"]) None) = Ok d_inc
    /\ outcome (filter_by_extension.scan_folder_filtered dir_tie "d"
                  None (Some ["txt"])) = Ok d_exc
    /\ outcome (filter_by_extension.scan_folder_filtered dir_tie "d"
                  None None) = Ok d_all
    /\ outcome (folder_report.scan_folder dir_tie "d") = Ok d_rep
    /\ filter_by_extension.total_files d_inc
       + filter_by_extension.total_files d_exc
       = filter_by_extension.total_files d_all
    /\ filter_by_extension.total_files d_all
       = folder_report.d_total_files d_rep.
Proof.
  apply (C5_include_exclude_complementary dir_tie "d" ["txt"]).
  - discriminate.
  - reflexivity.
Defined.

(** ** Size-read failure (C4) *)

Lemma bucket_of_update d k f :
  bucket_of (folder_report.dd_update d k f) k = f (bucket_of d k).
Proof.
  unfold bucket_of.
  induction d as [|[k' b] d IH]; cbn.
  - now rewrite String.eqb_refl.
  - destruct (String.eqb k' k) eqn:E; cbn; rewrite E; [reflexivity|exact IH].
Qed.





(** ** Byte-size formatting (C2) *)

Lemma round_shift_bounds n sh :
  n / 2 ^ sh <= round_shift n sh <= n / 2 ^ sh + 1.
Proof.
  unfold round_shift. rewrite N.shiftr_div_pow2.
  destruct (sh =? 0); [lia|].
  destruct (_ || _); lia.
Qed.

Lemma round53_small n : n < 2 ^ 53 -> round53 n = n.
Proof.
  intros H. unfold round53. apply N.ltb_lt in H. now rewrite H.
Qed.

Lemma round53_large n :
  2 ^ 53 <= n ->
  exists sh q, round53 n = q * 2 ^ sh /\ 1 <= sh /\ 2 ^ 52 <= n / 2 ^ sh
               /\ n / 2 ^ sh <= q <= n / 2 ^ sh + 1.
Proof.
  intros H. unfold round53.
  destruct (N.ltb_spec n (2 ^ 53)) as [Hlt|_]; [lia|].
  set (sh := N.log2 n - 52).
  assert (Hpos : 0 < n) by (apply N.lt_le_trans with (2 ^ 53); [reflexivity|exact H]).
  assert (Hlog : 53 <= N.log2 n) by (apply N.log2_le_pow2; assumption).
  exists sh, (round_shift n sh).
  rewrite N.shiftl_mul_pow2. split; [reflexivity|].
  split; [lia|]. split; [|apply round_shift_bounds].
  apply N.div_le_lower_bound; [apply N.pow_nonzero; lia|].
  rewrite <- N.pow_add_r.
  replace (sh + 52) with (N.log2 n) by lia.
  now apply N.log2_spec.
Qed.

Lemma round53_ge n : 2 ^ 53 <= n -> 2 ^ 53 <= round53 n.
Proof.
  intros H. destruct (round53_large n H) as (sh & q & -> & Hsh & Hq & Hb).
  change (2 ^ 53) with (2 ^ 52 * 2 ^ 1).
  apply N.mul_le_mono; [lia|].
  apply N.pow_le_mono_r; lia.
Qed.

Lemma round53_le_double n : round53 n <= 2 * n.
Proof.
  destruct (N.lt_ge_cases n (2 ^ 53)) as [H|H].
  - rewrite round53_small by assumption. lia.
  - destruct (round53_large n H) as (sh & q & -> & Hsh & Hq & Hb).
    assert (H1 : q <= 2 * (n / 2 ^ sh)).
    { assert (1 <= n / 2 ^ sh); [|lia].
      apply N.le_trans with (2 ^ 52); [|exact Hq]. discriminate. }
    apply N.le_trans with (2 * (n / 2 ^ sh) * 2 ^ sh).
    + now apply N.mul_le_mono_r.
    + rewrite <- N.mul_assoc. apply N.mul_le_mono_l.
      rewrite N.mul_comm. apply N.Div0.mul_div_le.
Qed.

Lemma round53_in_range n : n < 2 ^ 1024 -> round53 n < 2 ^ 1034.
Proof.
  intros H. apply N.le_lt_trans with (2 * n); [apply round53_le_double|].
  apply N.lt_trans with (2 ^ 1 * 2 ^ 1024).
  - change (2 ^ 1) with 2. now apply N.mul_lt_mono_pos_l.
  - rewrite <- N.pow_add_r. apply N.pow_lt_mono_r; [lia|reflexivity].
Qed.

(** Below [1024^5] the comparison made on the float agrees with the one on
    the byte count. *)
Lemma lt_1024_float (n k : N) :
  k <= 4 ->
  lt_1024 (Float (round53 n) (10 * k)) = (n <? 1024 * 1024 ^ k).
Proof.
  intros Hk. cbn [lt_1024].
  rewrite N.pow_mul_r. change (2 ^ 10) with 1024.
  destruct (N.lt_ge_cases n (2 ^ 53)) as [H|H].
  - now rewrite round53_small.
  - assert (Hb : 1024 * 1024 ^ k <= 2 ^ 53).
    { apply N.le_trans with (1024 * 1024 ^ 4); [|discriminate].
      apply N.mul_le_mono_l. apply N.pow_le_mono_r; [discriminate|exact Hk]. }
    pose proof (round53_ge n H) as Hr.
    destruct (N.ltb_spec (round53 n) (1024 * 1024 ^ k)),
             (N.ltb_spec n (1024 * 1024 ^ k)); try reflexivity; lia.
Qed.

Lemma snoc_hd_tl {A} (l : list A) (x : A) :
  (l ++ [x] = hd x (l ++ [x]) :: tl (l ++ [x]))%list.
Proof. now destruct l. Qed.

(** The loop on a float follows the rule of the specification. *)
Lemma format_size_loop_float (n : N) (units : list string) (k : N) :
  k + N.of_nat (length units) <= 5 ->
  folder_report.format_size_loop units (Float (round53 n) (10 * k))
  = Ok (let '(k', u) :=
          spec_scale (tl (units ++ ["PB"])) n k (hd "PB" (units ++ ["PB"]))%list
        in render_2f (round53 n) (10 * k') ++ " " ++ u).
Proof.
  revert k. induction units as [|unit rest IH]; intros k Hk.
  - reflexivity.
  - cbn [folder_report.format_size_loop app hd tl].
    rewrite (snoc_hd_tl rest "PB"). cbn [spec_scale].
    rewrite lt_1024_float by (cbn [length] in Hk; lia).
    rewrite N.leb_antisym.
    destruct (n <? 1024 * 1024 ^ k); cbn [negb].
    + reflexivity.
    + cbn [div_pow2 bindR format_2f].
      replace (10 * k + 10) with (10 * (k + 1)) by lia.
      apply IH. cbn [length] in Hk. lia.
Qed.

Lemma format_size_first (n : N) :
  folder_report.format_size n
  = if n <? 1024
    then s <~ format_2f (Int n) ;; Ok (s ++ " B")
    else x <~ div_pow2 (Int n) 10 ;;
         folder_report.format_size_loop ["KB"; "MB"; "GB"; "TB"] x.
Proof. reflexivity. Qed.

Lemma spec_format_first (n : N) :
  spec_format n
  = let '(k, u) :=
      if 1024 <=? n
      then spec_scale ["MB"; "GB"; "TB"; "PB"] n 1 "KB"
      else (0, "B") in
    render_2f (round53 n) (10 * k) ++ " " ++ u.
Proof. reflexivity. Qed.

Lemma format_size_cases (n : N) :
  folder_report.format_size n
  = if round53 n <? 2 ^ 1034 then Ok (spec_format n)
    else Raise OverflowError.
Proof.
  rewrite format_size_first, spec_format_first, N.leb_antisym.
  destruct (N.ltb_spec n 1024) as [Hlt|Hge]; cbn [negb].
  - assert (Hs : n < 2 ^ 53)
      by (apply N.lt_trans with 1024; [exact Hlt|reflexivity]).
    cbn [format_2f]. unfold float_of_int.
    rewrite (round53_small n Hs).
    assert (H1 : n < 2 ^ 1024).
    { apply N.lt_trans with (2 ^ 53); [exact Hs|].
      apply N.pow_lt_mono_r; [lia|reflexivity]. }
    assert (H2 : n < 2 ^ 1034).
    { apply N.lt_trans with (2 ^ 53); [exact Hs|].
      apply N.pow_lt_mono_r; [lia|reflexivity]. }
    apply N.ltb_lt in H1, H2. rewrite H1, H2. reflexivity.
  - cbn [div_pow2]. change (1024 + 10) with 1034.
    destruct (round53 n <? 2 ^ 1034); [|reflexivity].
    cbn [bindR].
    change (Float (round53 n) 10) with (Float (round53 n) (10 * 1)).
    rewrite format_size_loop_float by (cbn; lia).
    reflexivity.
Qed.

(** [round_shift n sh] is an integer nearest to [n / 2^sh]. *)
Lemma round_shift_nearest (n sh : N) :
  2 * (round_shift n sh * 2 ^ sh) <= 2 * n + 2 ^ sh
  /\ 2 * n <= 2 * (round_shift n sh * 2 ^ sh) + 2 ^ sh.
Proof.
  unfold round_shift.
  rewrite N.shiftr_div_pow2, N.land_ones, N.shiftl_1_l.
  destruct (N.eqb_spec sh 0) as [->|Hsh].
  - rewrite N.pow_0_r, N.div_1_r. lia.
  - assert (Hp : 2 ^ sh = 2 * 2 ^ (sh - 1)).
    { rewrite <- N.pow_succ_r'. f_equal. lia. }
    pose proof (N.div_mod n (2 ^ sh)) as Hdm.
    assert (Hnz : 2 ^ sh <> 0) by (apply N.pow_nonzero; lia).
    specialize (Hdm Hnz).
    pose proof (N.mod_lt n (2 ^ sh) Hnz) as Hlt.
    set (q := n / 2 ^ sh) in *. set (r := n mod 2 ^ sh) in *.
    set (h := 2 ^ (sh - 1)) in *.
    rewrite Hp in *.
    destruct (N.ltb_spec h r) as [H1|H1]; cbn [orb].
    + nia.
    + destruct (N.eqb_spec r h) as [H2|H2]; cbn [andb].
      * destruct (N.odd q); nia.
      * nia.
Qed.

Lemma spec_scale_top (n : N) :
  1024 ^ 5 <= n ->
  spec_scale ["KB"; "MB"; "GB"; "TB"; "PB"] n 0 "B" = (5, "PB").
Proof.
  intros H.
  assert (Hk : forall k, k <= 4 -> (1024 * 1024 ^ k <=? n) = true).
  { intros k Hk. apply N.leb_le.
    apply N.le_trans with (1024 ^ 5); [|exact H].
    change (1024 ^ 5) with (1024 * 1024 ^ 4).
    apply N.mul_le_mono_l. apply N.pow_le_mono_r; [discriminate|exact Hk]. }
  cbn [spec_scale]. rewrite !Hk by lia. reflexivity.
Qed.

(** C2, amended.  [folder_report.format_size] follows the rule of the
    specification: starting from [B] it moves to the next unit while the
    value is at least 1024, up to [PB], and renders the value reached with
    two decimals (rounded to nearest) and the unit.  The value is exact for
    byte counts below [2^53] and the nearest binary64 number above; byte
    counts below [2^1024] are always formatted, and from [1024^5] on the
    unit is [PB].  The five examples of the specification hold. *)
Theorem C2_format_size_scaling (n : N) :
  folder_report.format_size n
  = (if round53 n <? 2 ^ 1034 then Ok (spec_format n)
     else Raise OverflowError)
  /\ (n < 2 ^ 1024 -> folder_report.format_size n = Ok (spec_format n))
  /\ (n < 2 ^ 53 -> round53 n = n)
  /\ (forall m j,
        2 * (hundredths m j * 2 ^ j) <= 2 * (100 * m) + 2 ^ j
        /\ 2 * (100 * m) <= 2 * (hundredths m j * 2 ^ j) + 2 ^ j)
  /\ (1024 ^ 5 <= n -> n < 2 ^ 1024 ->
      folder_report.format_size n
      = Ok (render_2f (round53 n) 50 ++ " PB"))
  /\ folder_report.format_size 0 = Ok "0.00 B"
  /\ folder_report.format_size 1023 = Ok "1023.00 B"
  /\ folder_report.format_size 1024 = Ok "1.00 KB"
  /\ folder_report.format_size 1536 = Ok "1.50 KB"
  /\ folder_report.format_size 1048576 = Ok "1.00 MB"
  /\ folder_report.format_size (1024 ^ 5) = Ok "1.00 PB"
  /\ folder_report.format_size (1024 ^ 6) = Ok "1024.00 PB".
Proof.
  assert (Hok : n < 2 ^ 1024 ->
                folder_report.format_size n = Ok (spec_format n)).
  { intros H. rewrite format_size_cases.
    apply round53_in_range, N.ltb_lt in H. now rewrite H. }
  split; [apply format_size_cases|].
  split; [exact Hok|].
  split; [apply round53_small|].
  split; [intros m j; apply round_shift_nearest|].
  split.
  { intros H5 H. rewrite (Hok H). unfold spec_format.
    now rewrite (spec_scale_top n H5). }
  repeat split; vm_compute; reflexivity.
Qed.

Lemma C2_format_size_scaling_witness :
  folder_report.format_size (2 ^ 60) = Ok (spec_format (2 ^ 60))
  /\ round53 1536 = 1536
  /\ folder_report.format_size (2 ^ 60)
     = Ok (render_2f (round53 (2 ^ 60)) 50 ++ " PB").
Proof.
  pose proof (C2_format_size_scaling (2 ^ 60)) as (_ & H1 & _ & _ & H3 & _).
  pose proof (C2_format_size_scaling 1536) as (_ & _ & H2 & _).
  split; [apply H1; reflexivity|].
  split; [apply H2; reflexivity|].
  apply H3; [discriminate|reflexivity].
Defined.

(** [folder_scanner.format_size] is another rule: below 1024 it prints the
    integer with no decimals, and it stops at [GB]. *)
Lemma C2_scanner_format_differs :
  folder_scanner.format_size 0 = Ok "0 B"
  /\ folder_scanner.format_size 0 <> Ok "0.00 B"
  /\ folder_scanner.format_size 1023 = Ok "1023 B"
  /\ folder_scanner.format_size (1024 ^ 5) = Ok "1048576.00 GB".
Proof.
  repeat split; try (vm_compute; reflexivity). discriminate.
Qed.

(** ** Report rendering (C7) *)

Lemma format_size_ok (n : N) :
  n < 2 ^ 1024 -> exists s, folder_report.format_size n = Ok s.
Proof.
  intros H. exists (spec_format n). rewrite format_size_cases.
  apply round53_in_range, N.ltb_lt in H. now rewrite H.
Qed.

Lemma map_result_ok {X Y} (line : X -> result Y) (xs : list X) :
  (forall x, In x xs -> exists y, line x = Ok y) ->
  exists ys, map_result line xs = Ok ys.
Proof.
  induction xs as [|x xs IH]; intros H; [now exists []|].
  destruct (H x (or_introl eq_refl)) as [y Hy].
  destruct IH as [ys Hys]; [intros z Hz; apply H; now right|].
  exists (y :: ys). cbn. now rewrite Hy, Hys.
Qed.

Lemma insert_sorted_in (k x : string) (ks : list string) :
  In x (insert_sorted k ks) -> x = k \/ In x ks.
Proof.
  induction ks as [|k' ks IH]; cbn.
  - intros [<-|[]]. now left.
  - destruct (String.leb k k'); cbn.
    + intros [<-|H]; auto.
    + intros [<-|H]; auto. destruct (IH H); auto.
Qed.

Lemma sorted_in (x : string) (ks : list string) :
  In x (sorted ks) -> In x ks.
Proof.
  induction ks as [|k ks IH]; cbn; [auto|].
  intros H. apply insert_sorted_in in H as [->|H]; auto.
Qed.

Lemma getitem_key (d : folder_report.buckets) (ext : string) :
  In ext (map fst d) ->
  exists b, folder_report.getitem d ext = Ok b /\ In b (map snd d).
Proof.
  induction d as [|[k b] d IH]; cbn; [intros []|].
  intros [->|H].
  - rewrite String.eqb_refl. eauto.
  - destruct (String.eqb k ext); [eauto|].
    destruct (IH H) as (b' & E & Hin). eauto.
Qed.

Lemma breakdown_rows_ok (d : folder_report.buckets) :
  in_float_range (map (fun kb => folder_report.size (snd kb)) d) ->
  exists rows,
    map_result (folder_report.breakdown_line d) (sorted (map fst d))
    = Ok rows.
Proof.
  intros Hr. apply map_result_ok. intros ext Hin.
  apply sorted_in, getitem_key in Hin as (b & E & Hb).
  unfold folder_report.breakdown_line. rewrite E. cbn [bindR].
  destruct (format_size_ok (folder_report.size b)) as [s Hs].
  - unfold in_float_range in Hr. rewrite Forall_forall in Hr.
    apply Hr. apply in_map_iff in Hb as ([k b'] & <- & Hkb).
    apply in_map_iff. now exists (k, b').
  - rewrite Hs. cbn. eauto.
Qed.

Lemma largest_lines_ok (p : option Path) (n : N) :
  n < 2 ^ 1024 -> exists ls, folder_report.largest_lines p n = Ok ls.
Proof.
  intros H. unfold folder_report.largest_lines.
  destruct p as [p|]; [|eauto].
  destruct (format_size_ok n H) as [s ->]. cbn [bindR]. eauto.
Qed.

(** C7, amended.  [folder_report.build_report] and
    [filter_by_extension.build_filtered_report] are functions of the scan
    result alone: they read nothing else, and for every result whose byte
    counts are below [2^1024] they return a text, the same at every call. *)
Theorem C7_report_is_total_function (d : folder_report.data)
    (fd : filter_by_extension.data) :
  in_float_range (report_sizes d) ->
  in_float_range (filtered_sizes fd) ->
  (exists s,
     folder_report.build_report d = Ok s
     /\ forall s', folder_report.build_report d = Ok s' -> s' = s)
  /\ (exists s,
        filter_by_extension.build_filtered_report fd = Ok s
        /\ forall s',
             filter_by_extension.build_filtered_report fd = Ok s' -> s' = s).
Proof.
  intros Hd Hfd.
  assert (Hdet : forall r : result string,
            (exists s, r = Ok s) ->
            exists s, r = Ok s /\ forall s', r = Ok s' -> s' = s).
  { intros r [s ->]. exists s. split; [reflexivity|]. now intros s' [= <-]. }
  split; apply Hdet.
  - unfold report_sizes, in_float_range in Hd.
    apply Forall_cons_iff in Hd as [Ht Hd].
    apply Forall_cons_iff in Hd as [Hl Hb].
    unfold folder_report.build_report.
    destruct (format_size_ok _ Ht) as [t ->]. cbn [bindR].
    destruct (largest_lines_ok (folder_report.d_largest_file d) _ Hl)
      as [ls ->]. cbn [bindR].
    destruct (breakdown_rows_ok _ Hb) as [rows ->]. cbn [bindR].
    eauto.
  - unfold filtered_sizes, in_float_range in Hfd.
    apply Forall_cons_iff in Hfd as [Ht Hfd].
    apply Forall_cons_iff in Hfd as [Hl Hb].
    unfold filter_by_extension.build_filtered_report.
    destruct (format_size_ok _ Ht) as [t ->]. cbn [bindR].
    destruct (largest_lines_ok (filter_by_extension.largest_file fd) _ Hl)
      as [ls ->]. cbn [bindR].
    destruct (breakdown_rows_ok _ Hb) as [rows ->]. cbn [bindR].
    eauto.
Qed.

Lemma C7_report_is_total_function_witness :
  (exists s,
     folder_report.build_report empty_report = Ok s
     /\ forall s', folder_report.build_report empty_report = Ok s' -> s' = s)
  /\ (exists s,
        filter_by_extension.build_filtered_report empty_filtered = Ok s
        /\ forall s',
             filter_by_extension.build_filtered_report empty_filtered = Ok s'
             -> s' = s).
Proof.
  apply (C7_report_is_total_function empty_report empty_filtered);
    repeat constructor.
Defined.

(** The report of an empty directory: all totals are zero and the largest
    file is shown as "(none)". *)
Example empty_report_text :
  folder_report.build_report empty_report
  = Ok (join (String (ascii_of_N 10) "")
          [ repeat_str "=" 60; "FOLDER SCAN REPORT"; repeat_str "=" 60;
            "Folder: /d"; ""; "SUMMARY"; repeat_str "-" 40;
            "Total files:  0"; "Total size:   0.00 B"; "";
            "Largest file: (none)"; ""; "FILE TYPES BREAKDOWN";
            repeat_str "-" 40; repeat_str "=" 60 ]).
Proof. vm_compute. reflexivity. Qed.

(** [folder_scanner.build_report] also prints the date of the scan: two
    calls on the same folder and the same result, one second apart, give
    two different texts. *)
Lemma C7_scanner_report_reads_clock :
  folder_scanner.build_report (env_at 0) "/d" folder_scanner.init
  <> folder_scanner.build_report (env_at 1) "/d" folder_scanner.init.
Proof. vm_compute. discriminate. Qed.

(** * Further properties of the programs *)

(** ** The aggregate of the recursive scanners *)

Lemma max_of_sizes_app (a b : list Entry) :
  max_of_sizes (a ++ b) = N.max (max_of_sizes a) (max_of_sizes b).
Proof.
  unfold max_of_sizes. induction a as [|x a IH]; cbn [app fold_right].
  - now rewrite N.max_0_l.
  - now rewrite IH, N.max_assoc.
Qed.

Lemma sum_of_sizes_app (a b : list Entry) :
  sum_of_sizes (a ++ b) = sum_of_sizes a + sum_of_sizes b.
Proof.
  unfold sum_of_sizes. induction a as [|x a IH]; cbn [app fold_right].
  - reflexivity.
  - rewrite IH. lia.
Qed.

Lemma getitem_update_other d k k' f :
  k' <> k ->
  folder_report.getitem (folder_report.dd_update d k f) k'
  = folder_report.getitem d k'.
Proof.
  intros Hne. induction d as [|[k0 b] d IH]; cbn.
  - destruct (String.eqb_spec k k'); [congruence|reflexivity].
  - destruct (String.eqb_spec k0 k) as [->|H0]; cbn.
    + destruct (String.eqb_spec k k'); [congruence|reflexivity].
    + now rewrite IH.
Qed.

Lemma bucket_of_update_other d k k' f :
  k' <> k -> bucket_of (folder_report.dd_update d k f) k' = bucket_of d k'.
Proof. intros H. unfold bucket_of. now rewrite getitem_update_other. Qed.




Section Aggregate.

Variable keep : Entry -> bool.

Lemma walk_largest_size_max (l : list Entry) :
  folder_report.largest_size (walk keep l) = max_of_sizes (filter keep l).
Proof.
  induction l as [|x l IH] using rev_ind; [reflexivity|].
  rewrite walk_snoc, filter_app, max_of_sizes_app. unfold keep_step.
  cbn [filter]. destruct (keep x).
  - cbn [max_of_sizes fold_right]. rewrite N.max_0_r, <- IH.
    destruct (account_largest (walk keep l) x (size_or_zero x))
      as [(H & _ & ->)|(H & _ & ->)]; lia.
  - cbn [max_of_sizes fold_right]. now rewrite N.max_0_r.
Qed.

Lemma walk_bucket (l : list Entry) (ext : string) :
  folder_report.count
    (bucket_of (folder_report.by_extension (walk keep l)) ext)
  = N.of_nat (length (filter (kept_with_ext keep ext) l))
  /\ folder_report.size
       (bucket_of (folder_report.by_extension (walk keep l)) ext)
     = sum_of_sizes (filter (kept_with_ext keep ext) l).
Proof.
  induction l as [|x l [IHc IHs]] using rev_ind; [now split|].
  rewrite walk_snoc, filter_app, length_app, sum_of_sizes_app.
  unfold keep_step, kept_with_ext at 2 4. cbn [filter].
  destruct (keep x); cbn [andb].
  - rewrite account_by_extension.
    destruct (String.eqb_spec (filter_by_extension.ext_of x) ext)
      as [<-|Hne].
    + rewrite !bucket_of_update. cbn. rewrite IHc, IHs. split; lia.
    + rewrite !bucket_of_update_other by congruence.
      cbn. rewrite IHc, IHs. split; lia.
  - cbn. rewrite IHc, IHs. split; lia.
Qed.



Lemma walk_ignores_rejected (l : list Entry) :
  walk keep (filter keep l) = walk keep l.
Proof.
  induction l as [|x l IH] using rev_ind; [reflexivity|].
  rewrite filter_app, walk_snoc. cbn [filter]. unfold keep_step.
  destruct (keep x) eqn:Hk.
  - rewrite walk_snoc. unfold keep_step. now rewrite Hk, IH.
  - now rewrite app_nil_r.
Qed.

End Aggregate.

Lemma max_of_sizes_in (l : list Entry) (e : Entry) :
  In e l -> size_or_zero e <= max_of_sizes l.
Proof.
  unfold max_of_sizes. induction l as [|x l IH]; [intros []|].
  cbn [fold_right]. intros [->|H]; [lia|]. specialize (IH H). lia.
Qed.


(** X1.  The totals of a recursive scan: [total_files] is the number of
    retained entries and [total_size] the sum of their sizes, a size that
    cannot be read counting for 0. *)
Theorem scan_totals fs folder_path extensions exclude :
  fs_is_dir fs (fs_resolve fs folder_path) = true ->
  let entries := fs_rglob fs (fs_resolve fs folder_path) in
  let keep := retained (filter_by_extension.normalize extensions)
                       (filter_by_extension.normalize exclude) in
  (exists d,
     outcome (folder_report.scan_folder fs folder_path) = Ok d
     /\ folder_report.d_total_files d
        = N.of_nat (length (filter e_is_file entries))
     /\ folder_report.d_total_size d
        = sum_of_sizes (filter e_is_file entries))
  /\ (exists d,
        outcome (filter_by_extension.scan_folder_filtered fs folder_path
                   extensions exclude) = Ok d
        /\ filter_by_extension.total_files d
           = N.of_nat (length (filter keep entries))
        /\ filter_by_extension.total_size d
           = sum_of_sizes (filter keep entries)).
Proof.
  intros Hdir entries keep. split.
  - eexists. split; [now apply report_outcome|]. cbn.
    split; [apply walk_total_files|apply walk_total_size].
  - eexists. split; [now apply filtered_outcome|]. cbn.
    rewrite filtered_final_base.
    split; [apply walk_total_files|apply walk_total_size].
Qed.

Lemma scan_totals_witness :
  exists d,
    outcome (folder_report.scan_folder dir_tie "d") = Ok d
    /\ folder_report.d_total_files d = 3
    /\ folder_report.d_total_size d = 45.
Proof.
  exact (proj1 (scan_totals dir_tie "d" None None eq_refl)).
Defined.

(** X2.  The largest size reported by a recursive scan is the maximum of
    the sizes of the retained entries: no retained entry is larger. *)
Theorem scan_largest_size_is_maximum fs folder_path extensions exclude :
  fs_is_dir fs (fs_resolve fs folder_path) = true ->
  let entries := fs_rglob fs (fs_resolve fs folder_path) in
  let keep := retained (filter_by_extension.normalize extensions)
                       (filter_by_extension.normalize exclude) in
  (exists d,
     outcome (folder_report.scan_folder fs folder_path) = Ok d
     /\ folder_report.d_largest_size d
        = max_of_sizes (filter e_is_file entries)
     /\ forall e, In e entries -> e_is_file e = true ->
                  size_or_zero e <= folder_report.d_largest_size d)
  /\ (exists d,
        outcome (filter_by_extension.scan_folder_filtered fs folder_path
                   extensions exclude) = Ok d
        /\ filter_by_extension.largest_size d
           = max_of_sizes (filter keep entries)
        /\ forall e, In e entries -> keep e = true ->
                     size_or_zero e <= filter_by_extension.largest_size d).
Proof.
  intros Hdir entries keep. split.
  - eexists. split; [now apply report_outcome|]. cbn.
    rewrite walk_largest_size_max. split; [reflexivity|].
    intros e Hin Hk. apply max_of_sizes_in, filter_In. auto.
  - eexists. split; [now apply filtered_outcome|]. cbn.
    rewrite filtered_final_base, walk_largest_size_max.
    split; [reflexivity|].
    intros e Hin Hk. apply max_of_sizes_in, filter_In. auto.
Qed.

Lemma scan_largest_size_is_maximum_witness :
  exists d,
    outcome (filter_by_extension.scan_folder_filtered dir_tie "d"
               None (Some ["txt"])) = Ok d
    /\ filter_by_extension.largest_size d = 5
    /\ forall e, In e (fs_rglob dir_tie "/d") ->
                 retained None (Some [".txt"]) e = true ->
                 size_or_zero e <= filter_by_extension.largest_size d.
Proof.
  exact (proj2 (scan_largest_size_is_maximum dir_tie "d"
                  None (Some ["txt"]) eq_refl)).
Defined.



(** ** Order of the walk, entries that are not files, absent filters *)

Lemma filter_perm {A} (p : A -> bool) (l l' : list A) :
  Permutation l l' -> Permutation (filter p l) (filter p l').
Proof.
  induction 1 as [|x l l' _ IH|x y l|l l' l'' _ IH1 _ IH2]; cbn.
  - constructor.
  - destruct (p x); [now constructor|exact IH].
  - destruct (p x), (p y); try reflexivity. apply perm_swap.
  - now transitivity (filter p l').
Qed.

Lemma sum_of_sizes_perm (l l' : list Entry) :
  Permutation l l' -> sum_of_sizes l = sum_of_sizes l'.
Proof.
  unfold sum_of_sizes.
  induction 1 as [|x l l' _ IH|x y l|l l' l'' _ IH1 _ IH2]; cbn;
    [reflexivity|now rewrite IH|lia|congruence].
Qed.

Lemma max_of_sizes_perm (l l' : list Entry) :
  Permutation l l' -> max_of_sizes l = max_of_sizes l'.
Proof.
  unfold max_of_sizes.
  induction 1 as [|x l l' _ IH|x y l|l l' l'' _ IH1 _ IH2]; cbn;
    [reflexivity|now rewrite IH|lia|congruence].
Qed.

Lemma walk_total_sum (keep : Entry -> bool) (l : list Entry) :
  folder_report.total_size (walk keep l) = sum_of_sizes (filter keep l).
Proof. apply walk_total_size. Qed.

Lemma with_rglob_outcome fs folder_path (l : list Entry) :
  fs_is_dir fs (fs_resolve fs folder_path) = true ->
  outcome (folder_report.scan_folder (with_rglob fs l) folder_path)
  = Ok (report_data (fs_resolve fs folder_path) (walk e_is_file l)).
Proof. intros H. now rewrite report_outcome. Qed.

(** X4.  The order in which the walk yields the entries does not change
    the totals, the largest size or the bucket of any extension computed by
    [folder_report.scan_folder] (only the largest file among equals and the
    insertion order of the keys depend on it). *)
Theorem scan_order_independent fs folder_path (l l' : list Entry)
    (ext : string) :
  fs_is_dir fs (fs_resolve fs folder_path) = true ->
  Permutation l l' ->
  exists d d',
    outcome (folder_report.scan_folder (with_rglob fs l) folder_path) = Ok d
    /\ outcome (folder_report.scan_folder (with_rglob fs l') folder_path)
       = Ok d'
    /\ order_free d ext = order_free d' ext.
Proof.
  intros Hdir Hp. do 2 eexists.
  split; [now apply with_rglob_outcome|].
  split; [now apply with_rglob_outcome|].
  unfold order_free. cbn.
  rewrite !walk_total_files, !walk_total_sum, !walk_largest_size_max.
  pose proof (filter_perm e_is_file _ _ Hp) as Hf.
  rewrite (Permutation_length Hf), (sum_of_sizes_perm _ _ Hf),
    (max_of_sizes_perm _ _ Hf).
  f_equal.
  destruct (walk_bucket e_is_file l ext) as [Hc Hs].
  destruct (walk_bucket e_is_file l' ext) as [Hc' Hs'].
  pose proof (filter_perm (kept_with_ext e_is_file ext) _ _ Hp) as Hk.
  rewrite (Permutation_length Hk) in Hc.
  rewrite (sum_of_sizes_perm _ _ Hk) in Hs.
  destruct (bucket_of _ ext) as [c1 s1], (bucket_of _ ext) as [c2 s2].
  cbn in *. congruence.
Qed.

Lemma scan_order_independent_witness :
  exists d d',
    outcome (folder_report.scan_folder
               (with_rglob dir_tie [file_a (Some 20); file_c (Some 5)]) "d")
    = Ok d
    /\ outcome (folder_report.scan_folder
                  (with_rglob dir_tie [file_c (Some 5); file_a (Some 20)])
                  "d")
       = Ok d'
    /\ order_free d ".txt" = order_free d' ".txt".
Proof.
  apply (scan_order_independent dir_tie "d"); [reflexivity|apply perm_swap].
Defined.

(** X5.  Entries of the walk that are not regular files (directories and
    the like) contribute nothing: both recursive scanners return the result
    they return on the walk without these entries. *)
Theorem scan_ignores_non_files fs folder_path extensions exclude
    (l : list Entry) :
  outcome (folder_report.scan_folder (with_rglob fs l) folder_path)
  = outcome (folder_report.scan_folder
               (with_rglob fs (filter e_is_file l)) folder_path)
  /\ outcome (filter_by_extension.scan_folder_filtered (with_rglob fs l)
                folder_path extensions exclude)
     = outcome (filter_by_extension.scan_folder_filtered
                  (with_rglob fs (filter e_is_file l))
                  folder_path extensions exclude).
Proof.
  destruct (fs_is_dir fs (fs_resolve fs folder_path)) eqn:Hdir.
  - split.
    + rewrite !with_rglob_outcome by assumption.
      now rewrite walk_ignores_rejected.
    + rewrite !filtered_outcome by assumption. f_equal.
      unfold filtered_final. cbn [with_rglob fs_rglob fs_resolve].
      generalize filter_by_extension.init.
      induction l as [|x l IH]; intros st; [reflexivity|].
      cbn [filter fold_left]. destruct (e_is_file x) eqn:Hx.
      * cbn [fold_left]. now rewrite IH.
      * rewrite IH. f_equal. unfold filtered_step. now rewrite Hx.
  - split.
    + now rewrite !report_scan_not_dir.
    + now rewrite !filtered_scan_not_dir.
Qed.

Lemma keep_step_ext (keep keep' : Entry -> bool) (l : list Entry) :
  (forall e, keep e = keep' e) -> walk keep l = walk keep' l.
Proof.
  intros H. unfold walk. generalize folder_report.init.
  induction l as [|x l IH]; intros st; [reflexivity|].
  cbn [fold_left]. rewrite IH. f_equal. unfold keep_step. now rewrite H.
Qed.

Lemma normalize_falsy (o : option (list string)) :
  filter_by_extension.truthy o = false ->
  filter_by_extension.normalize o = o.
Proof. unfold filter_by_extension.normalize. now intros ->. Qed.

Lemma passes_falsy (inc exc : option (list string)) (e : Entry) :
  filter_by_extension.truthy inc = false ->
  filter_by_extension.truthy exc = false ->
  passes inc exc e = true.
Proof. unfold passes. now intros -> ->. Qed.

(** X6.  A filter that is absent or an empty list is no filter: with both
    filters so, [scan_folder_filtered] makes the same calls as
    [folder_report.scan_folder], fails as it does, and returns the same
    folder, totals, largest file and buckets, with [skipped = 0] and the
    filters as given. *)
Theorem filtered_scan_without_filter fs folder_path extensions exclude :
  filter_by_extension.truthy extensions = false ->
  filter_by_extension.truthy exclude = false ->
  trace (filter_by_extension.scan_folder_filtered fs folder_path
           extensions exclude)
  = trace (folder_report.scan_folder fs folder_path)
  /\ outcome (filter_by_extension.scan_folder_filtered fs folder_path
                extensions exclude)
     = (d <~ outcome (folder_report.scan_folder fs folder_path) ;;
        Ok (filter_by_extension.mkData
              (folder_report.folder d) (folder_report.d_total_files d)
              (folder_report.d_total_size d)
              (folder_report.d_largest_file d)
              (folder_report.d_largest_size d)
              (folder_report.d_by_extension d) 0 extensions exclude)).
Proof.
  intros Hi He.
  destruct (fs_is_dir fs (fs_resolve fs folder_path)) eqn:Hdir.
  - rewrite filtered_scan_dir, report_scan_dir by assumption.
    rewrite !normalize_falsy by assumption.
    unfold trace, outcome. cbn [fst snd bindR]. split.
    + f_equal. apply flat_map_ext. intros e.
      unfold filtered_events, report_events, retained.
      rewrite passes_falsy by assumption. now rewrite andb_true_r.
    + unfold filtered_data, report_data. cbn.
      rewrite filtered_final_base, filtered_final_skipped.
      rewrite !normalize_falsy by assumption.
      rewrite (keep_step_ext (retained extensions exclude) e_is_file).
      * replace (filter (rejected extensions exclude) _) with (@nil Entry);
          [reflexivity|].
        symmetry. induction (fs_rglob fs (fs_resolve fs folder_path))
          as [|x l IH]; [reflexivity|].
        cbn [filter]. unfold rejected at 1.
        rewrite passes_falsy by assumption.
        now rewrite andb_false_r.
      * intros e. unfold retained. rewrite passes_falsy by assumption.
        apply andb_true_r.
  - rewrite filtered_scan_not_dir, report_scan_not_dir by assumption.
    split; reflexivity.
Qed.

Lemma filtered_scan_without_filter_witness :
  trace (filter_by_extension.scan_folder_filtered dir_tie "d"
           (Some []) None)
  = trace (folder_report.scan_folder dir_tie "d")
  /\ exists d,
       outcome (filter_by_extension.scan_folder_filtered dir_tie "d"
                  (Some []) None) = Ok d
       /\ filter_by_extension.total_files d = 3
       /\ filter_by_extension.d_skipped d = 0
       /\ filter_by_extension.filter_include d = Some [].
Proof.
  destruct (filtered_scan_without_filter dir_tie "d" (Some []) None
              eq_refl eq_refl) as [Ht Ho].
  split; [exact Ht|]. eexists. split; [exact Ho|]. repeat split.
Defined.

(** ** Both filters, and what include and exclude share *)

Lemma str_in_In (x : string) (xs : list string) :
  str_in x xs = true <-> In x xs.
Proof.
  unfold str_in. rewrite existsb_exists. split.
  - intros (y & Hin & E). apply String.eqb_eq in E. now subst.
  - intros H. exists x. split; [exact H|apply String.eqb_refl].
Qed.

Lemma normalize_nonempty (S : list string) :
  S <> [] ->
  filter_by_extension.normalize (Some S)
  = Some (filter_by_extension.normalize_list S)
  /\ filter_by_extension.truthy
       (Some (filter_by_extension.normalize_list S)) = true.
Proof. intros H. destruct S as [|x S]; [contradiction|]. now split. Qed.

Lemma passes_both (I E : list string) (e : Entry) :
  I <> [] -> E <> [] ->
  passes (filter_by_extension.normalize (Some I))
         (filter_by_extension.normalize (Some E)) e
  = str_in (filter_by_extension.ext_of e)
           (filter_by_extension.normalize_list I)
    && negb (str_in (filter_by_extension.ext_of e)
                    (filter_by_extension.normalize_list E)).
Proof.
  intros HI HE.
  destruct (normalize_nonempty I HI) as [-> Ht1].
  destruct (normalize_nonempty E HE) as [-> Ht2].
  unfold passes. rewrite Ht1, Ht2. cbn [filter_by_extension.members andb].
  now rewrite negb_involutive.
Qed.

(** X7.  With an include list [I] and an exclude list [E], both non-empty,
    a regular file is retained exactly when its extension is in normalized
    [I] and not in normalized [E], and is counted in [skipped] otherwise;
    when every included extension is also excluded nothing is retained and
    the largest file is [None]. *)
Theorem filtered_scan_both_filters fs folder_path (I E : list string) :
  I <> [] -> E <> [] ->
  fs_is_dir fs (fs_resolve fs folder_path) = true ->
  let entries := fs_rglob fs (fs_resolve fs folder_path) in
  let inI := fun e => str_in (filter_by_extension.ext_of e)
                             (filter_by_extension.normalize_list I) in
  let inE := fun e => str_in (filter_by_extension.ext_of e)
                             (filter_by_extension.normalize_list E) in
  exists d,
    outcome (filter_by_extension.scan_folder_filtered fs folder_path
               (Some I) (Some E)) = Ok d
    /\ filter_by_extension.total_files d
       = N.of_nat (length (filter (fun e => e_is_file e && inI e
                                            && negb (inE e)) entries))
    /\ filter_by_extension.d_skipped d
       = N.of_nat (length (filter (fun e => e_is_file e
                                            && (negb (inI e) || inE e))
                                  entries))
    /\ ((forall x, In x (filter_by_extension.normalize_list I) ->
                   In x (filter_by_extension.normalize_list E)) ->
        filter_by_extension.total_files d = 0
        /\ filter_by_extension.largest_file d = None).
Proof.
  intros HI HE Hdir entries inI inE.
  eexists. split; [now apply filtered_outcome|].
  cbn [filtered_data filter_by_extension.total_files
       filter_by_extension.d_skipped filter_by_extension.largest_file].
  rewrite filtered_final_base, filtered_final_skipped, walk_total_files.
  fold entries.
  assert (Hret : forall e,
            retained (filter_by_extension.normalize (Some I))
                     (filter_by_extension.normalize (Some E)) e
            = e_is_file e && inI e && negb (inE e)).
  { intros e. unfold retained. rewrite passes_both by assumption.
    now rewrite andb_assoc. }
  assert (Hrej : forall e,
            rejected (filter_by_extension.normalize (Some I))
                     (filter_by_extension.normalize (Some E)) e
            = e_is_file e && (negb (inI e) || inE e)).
  { intros e. unfold rejected. rewrite passes_both by assumption.
    fold (inI e) (inE e). now destruct (inI e), (inE e). }
  rewrite (filter_ext _ _ Hret), (filter_ext _ _ Hrej).
  split; [reflexivity|split; [reflexivity|]].
  intros Hsub.
  assert (H0 : filter (fun e => e_is_file e && inI e && negb (inE e))
                      entries = []).
  { induction entries as [|x l IH]; [reflexivity|]. cbn [filter].
    destruct (inI x) eqn:Ex.
    - apply str_in_In, Hsub, str_in_In in Ex. fold (inE x) in Ex.
      rewrite Ex. now rewrite andb_false_r.
    - now rewrite andb_false_r. }
  rewrite H0. split; [reflexivity|].
  apply walk_largest_none. rewrite walk_total_files.
  now rewrite (filter_ext _ _ Hret), H0.
Qed.

Lemma filtered_scan_both_filters_witness :
  exists d,
    outcome (filter_by_extension.scan_folder_filtered dir_tie "d"
               (Some ["TXT"]) (Some ["txt"; "py"])) = Ok d
    /\ filter_by_extension.total_files d = 0
    /\ filter_by_extension.largest_file d = None
    /\ filter_by_extension.d_skipped d = 3.
Proof.
  destruct (filtered_scan_both_filters dir_tie "d" ["TXT"] ["txt"; "py"])
    as (d & E & _ & Hs & H0); [discriminate|discriminate|reflexivity|].
  exists d. split; [exact E|].
  destruct H0 as [Ht Hl].
  { intros x [<-|[]]. now left. }
  repeat split; [exact Ht|exact Hl|exact Hs].
Defined.

Lemma sum_of_sizes_split (a b c : Entry -> bool) (l : list Entry) :
  (forall x, c x = a x || b x) ->
  (forall x, a x && b x = false) ->
  sum_of_sizes (filter a l) + sum_of_sizes (filter b l)
  = sum_of_sizes (filter c l).
Proof.
  intros Hc Hab. induction l as [|x l IH]; [reflexivity|].
  cbn [filter]. rewrite Hc. specialize (Hab x).
  destruct (a x), (b x); cbn in *; try discriminate;
    unfold sum_of_sizes in *; cbn [fold_right]; lia.
Qed.

(** X8.  For a non-empty list [S], the total sizes of the scan that
    includes [S] and of the scan that excludes [S] add up to the total size
    of the scan without filter, and each of the two scans skips exactly the
    files the other one retains. *)
Theorem include_exclude_share_the_files fs folder_path (S : list string) :
  S <> [] ->
  fs_is_dir fs (fs_resolve fs folder_path) = true ->
  exists d_inc d_exc d_all,
    outcome (filter_by_extension.scan_folder_filtered fs folder_path
               (Some S) None) = Ok d_inc
    /\ outcome (filter_by_extension.scan_folder_filtered fs folder_path
                  None (Some S)) = Ok d_exc
    /\ outcome (folder_report.scan_folder fs folder_path) = Ok d_all
    /\ filter_by_extension.total_size d_inc
       + filter_by_extension.total_size d_exc
       = folder_report.d_total_size d_all
    /\ filter_by_extension.d_skipped d_inc
       = filter_by_extension.total_files d_exc
    /\ filter_by_extension.d_skipped d_exc
       = filter_by_extension.total_files d_inc.
Proof.
  intros HS Hdir. do 3 eexists.
  split; [now apply filtered_outcome|].
  split; [now apply filtered_outcome|].
  split; [now apply report_outcome|].
  cbn [filtered_data report_data filter_by_extension.total_size
       filter_by_extension.total_files filter_by_extension.d_skipped
       folder_report.d_total_size].
  rewrite !filtered_final_base, !filtered_final_skipped,
    !walk_total_files, !walk_total_sum.
  change (filter_by_extension.normalize None) with (@None (list string)).
  split; [|split].
  - apply sum_of_sizes_split; intros x; unfold retained;
      rewrite (passes_include S x HS), (passes_exclude S x HS);
      destruct (e_is_file x), (str_in _ _); reflexivity.
  - f_equal. f_equal. apply filter_ext. intros x.
    unfold rejected, retained.
    rewrite (passes_include S x HS), (passes_exclude S x HS). reflexivity.
  - f_equal. f_equal. apply filter_ext. intros x.
    unfold rejected, retained.
    rewrite (passes_include S x HS), (passes_exclude S x HS).
    now rewrite negb_involutive.
Qed.

Lemma include_exclude_share_the_files_witness :
  exists d_inc d_exc d_all,
    outcome (filter_by_extension.scan_folder_filtered dir_tie "d"
               (Some ["txt"]) None) = Ok d_inc
    /\ outcome (filter_by_extension.scan_folder_filtered dir_tie "d"
                  None (Some ["txt"])) = Ok d_exc
    /\ outcome (folder_report.scan_folder dir_tie "d") = Ok d_all
    /\ filter_by_extension.total_size d_inc
       + filter_by_extension.total_size d_exc
       = folder_report.d_total_size d_all
    /\ filter_by_extension.d_skipped d_inc
       = filter_by_extension.total_files d_exc
    /\ filter_by_extension.d_skipped d_exc
       = filter_by_extension.total_files d_inc.
Proof.
  apply (include_exclude_share_the_files dir_tie "d" ["txt"]);
    [discriminate|reflexivity].
Defined.

(** ** The single-level scanner *)

Lemma scanner_body_readable folder_path st e :
  readable e = true ->
  folder_scanner.body folder_path st e
  = (scanner_events folder_path e, Ok (scanner_step st e)).
Proof.
  unfold readable, folder_scanner.body, scanner_events, scanner_step, d_size.
  destruct (d_is_file e); cbn; [|reflexivity].
  destruct (d_getsize e); [reflexivity|discriminate].
Qed.

Lemma scanner_loop_readable folder_path (l : list DirEntry) st :
  forallb readable l = true ->
  for_each l (folder_scanner.body folder_path) st
  = (flat_map (scanner_events folder_path) l,
     Ok (fold_left scanner_step l st)).
Proof.
  revert st. induction l as [|x l IH]; intros st; [reflexivity|].
  cbn [forallb]. intros [Hx Hl]%andb_prop.
  cbn [for_each flat_map fold_left].
  rewrite (scanner_body_readable _ _ _ Hx). cbn [bind].
  now rewrite (IH _ Hl).
Qed.

Lemma scanner_loop_unreadable folder_path (l1 l2 : list DirEntry) e st :
  forallb readable l1 = true ->
  d_is_file e = true -> d_getsize e = None ->
  for_each (l1 ++ e :: l2) (folder_scanner.body folder_path) st
  = ((flat_map (scanner_events folder_path) l1
      ++ [EvIsFile (folder_scanner.path_join folder_path (d_name e));
          EvStat (folder_scanner.path_join folder_path (d_name e))])%list,
     Raise OSError).
Proof.
  intros H1 Hf Hs. revert st.
  induction l1 as [|x l1 IH]; intros st.
  - cbn [app for_each flat_map]. unfold folder_scanner.body at 1.
    rewrite Hf, Hs. reflexivity.
  - cbn [forallb] in H1. apply andb_prop in H1 as [Hx Hl].
    cbn [app for_each flat_map].
    rewrite (scanner_body_readable _ _ _ Hx). cbn [bind].
    rewrite (IH Hl). now rewrite app_assoc.
Qed.

Lemma scanner_walk_snoc (l : list DirEntry) (x : DirEntry) :
  scanner_walk (l ++ [x]) = scanner_step (scanner_walk l) x.
Proof. unfold scanner_walk. now rewrite fold_left_app. Qed.

Lemma counter_total_incr (c : folder_scanner.counter) (k : string) :
  counter_total (folder_scanner.incr c k) = counter_total c + 1.
Proof.
  unfold counter_total. induction c as [|[k' n] c IH]; cbn; [reflexivity|].
  destruct (String.eqb k' k); cbn; [|rewrite IH]; lia.
Qed.

Lemma scanner_account_largest st e sz :
  (folder_scanner.largest_file_size st < sz
   /\ folder_scanner.largest_file_name (folder_scanner.account st e sz)
      = Some (d_name e)
   /\ folder_scanner.largest_file_size (folder_scanner.account st e sz) = sz)
  \/ (sz <= folder_scanner.largest_file_size st
      /\ folder_scanner.largest_file_name (folder_scanner.account st e sz)
         = folder_scanner.largest_file_name st
      /\ folder_scanner.largest_file_size (folder_scanner.account st e sz)
         = folder_scanner.largest_file_size st).
Proof.
  unfold folder_scanner.account.
  destruct (N.ltb_spec (folder_scanner.largest_file_size st) sz); cbn; auto.
Qed.

Lemma scanner_account_totals st e sz :
  folder_scanner.total_files (folder_scanner.account st e sz)
  = folder_scanner.total_files st + 1
  /\ folder_scanner.total_size (folder_scanner.account st e sz)
     = folder_scanner.total_size st + sz
  /\ counter_total
       (folder_scanner.extension_counter (folder_scanner.account st e sz))
     = counter_total (folder_scanner.extension_counter st) + 1.
Proof.
  unfold folder_scanner.account.
  destruct (folder_scanner.largest_file_size st <? sz); cbn;
    rewrite counter_total_incr; auto.
Qed.

Lemma d_max_app (a b : list DirEntry) :
  d_max (a ++ b) = N.max (d_max a) (d_max b).
Proof.
  unfold d_max. induction a as [|x a IH]; cbn [app fold_right].
  - now rewrite N.max_0_l.
  - now rewrite IH, N.max_assoc.
Qed.

Lemma d_sum_app (a b : list DirEntry) :
  d_sum (a ++ b) = d_sum a + d_sum b.
Proof.
  unfold d_sum. induction a as [|x a IH]; cbn [app fold_right];
    [reflexivity|rewrite IH; lia].
Qed.

Lemma scanner_walk_aggregate (l : list DirEntry) :
  folder_scanner.total_files (scanner_walk l)
  = N.of_nat (length (filter d_is_file l))
  /\ folder_scanner.total_size (scanner_walk l)
     = d_sum (filter d_is_file l)
  /\ counter_total (folder_scanner.extension_counter (scanner_walk l))
     = folder_scanner.total_files (scanner_walk l)
  /\ folder_scanner.largest_file_size (scanner_walk l)
     = d_max (filter d_is_file l)
  /\ (folder_scanner.largest_file_name (scanner_walk l) = None
      <-> folder_scanner.largest_file_size (scanner_walk l) = 0).
Proof.
  induction l as [|x l (IHf & IHs & IHc & IHm & IHn)] using rev_ind.
  - cbn. repeat split; reflexivity.
  - rewrite scanner_walk_snoc, filter_app, length_app, d_sum_app, d_max_app.
    unfold scanner_step. cbn [filter].
    destruct (d_is_file x); cbn [length d_sum d_max fold_right].
    + destruct (scanner_account_totals (scanner_walk l) x (d_size x))
        as (-> & -> & ->).
      rewrite IHf, IHs, IHc, IHf, N.max_0_r, <- IHm.
      split; [lia|]. split; [lia|]. split; [lia|].
      destruct (scanner_account_largest (scanner_walk l) x (d_size x))
        as [(H & -> & ->)|(H & -> & ->)].
      * split; [lia|]. split; [discriminate|lia].
      * split; [lia|exact IHn].
    + rewrite N.max_0_r, !N.add_0_r, <- plus_n_O. repeat split; tauto.
Qed.

Lemma d_max_lt (b : N) (l : list DirEntry) :
  0 < b -> d_sizes_lt b l = true -> d_max (filter d_is_file l) < b.
Proof.
  intros Hb. unfold d_sizes_lt, d_max.
  induction l as [|x l IH]; cbn [forallb filter fold_right]; [easy|].
  intros [Hx Hl]%andb_prop. specialize (IH Hl).
  destruct (d_is_file x); cbn [fold_right]; [|exact IH].
  cbn in Hx. apply N.ltb_lt in Hx. lia.
Qed.

(** Files that are not larger than the running largest leave it in
    place. *)
Lemma scanner_keep_not_larger (l : list DirEntry) st :
  d_sizes_le (folder_scanner.largest_file_size st) l = true ->
  folder_scanner.largest_file_name (fold_left scanner_step l st)
  = folder_scanner.largest_file_name st
  /\ folder_scanner.largest_file_size (fold_left scanner_step l st)
     = folder_scanner.largest_file_size st.
Proof.
  unfold d_sizes_le. revert st.
  induction l as [|x l IH]; intros st; [now split|].
  cbn [forallb fold_left]. intros [Hx Hl]%andb_prop.
  assert (Hst : folder_scanner.largest_file_name (scanner_step st x)
                = folder_scanner.largest_file_name st
                /\ folder_scanner.largest_file_size (scanner_step st x)
                   = folder_scanner.largest_file_size st).
  { unfold scanner_step. destruct (d_is_file x); [|now split].
    cbn in Hx. apply N.leb_le in Hx.
    destruct (scanner_account_largest st x (d_size x))
      as [(Hlt & _)|(_ & Ef & Es)]; [lia|now split]. }
  destruct Hst as [Ef Es]. rewrite <- Ef, <- Es.
  apply IH. now rewrite Es.
Qed.

Lemma scanner_first_maximal (l1 l2 : list DirEntry) (e : DirEntry) :
  d_is_file e = true -> 0 < d_size e ->
  d_sizes_lt (d_size e) l1 = true ->
  d_sizes_le (d_size e) l2 = true ->
  folder_scanner.largest_file_name (scanner_walk (l1 ++ e :: l2))
  = Some (d_name e)
  /\ folder_scanner.largest_file_size (scanner_walk (l1 ++ e :: l2))
     = d_size e.
Proof.
  intros Hf Hpos H1 H2. unfold scanner_walk.
  rewrite fold_left_app. cbn [fold_left]. fold (scanner_walk l1).
  pose proof (d_max_lt _ _ Hpos H1) as Hb.
  destruct (scanner_walk_aggregate l1) as (_ & _ & _ & Hm & _).
  rewrite <- Hm in Hb.
  assert (Hst : folder_scanner.largest_file_name
                  (scanner_step (scanner_walk l1) e) = Some (d_name e)
                /\ folder_scanner.largest_file_size
                     (scanner_step (scanner_walk l1) e) = d_size e).
  { unfold scanner_step. rewrite Hf.
    destruct (scanner_account_largest (scanner_walk l1) e (d_size e))
      as [(_ & Ef & Es)|(Hle & _)]; [now split|lia]. }
  destruct Hst as [Ef Es]. rewrite <- Ef, <- Es.
  apply scanner_keep_not_larger. now rewrite Es.
Qed.

(** X9.  [folder_scanner.scan_folder] on a directory whose regular files
    all have a readable size: it queries every listed entry in order and
    returns the number of regular files, the sum of their sizes, the
    maximum of their sizes, and a counter of extensions whose counts add up
    to the number of files. *)
Theorem scanner_scan_readable fs folder_path :
  fs_is_dir fs folder_path = true ->
  forallb readable (fs_listdir fs folder_path) = true ->
  let l := fs_listdir fs folder_path in
  exists d,
    folder_scanner.scan_folder fs folder_path
    = (EvIsDir folder_path :: EvWalk folder_path
         :: flat_map (scanner_events folder_path) l, Ok d)
    /\ folder_scanner.total_files d = N.of_nat (length (filter d_is_file l))
    /\ folder_scanner.total_size d = d_sum (filter d_is_file l)
    /\ folder_scanner.largest_file_size d = d_max (filter d_is_file l)
    /\ counter_total (folder_scanner.extension_counter d)
       = folder_scanner.total_files d.
Proof.
  intros Hdir Hr l. exists (scanner_walk l). split.
  - rewrite (scanner_scan_dir _ _ Hdir).
    now rewrite (scanner_loop_readable _ _ _ Hr).
  - destruct (scanner_walk_aggregate l) as (Hf & Hs & Hc & Hm & _). auto.
Qed.

Lemma scanner_scan_readable_witness :
  exists d,
    folder_scanner.scan_folder dir_tie "/d"
    = ([EvIsDir "/d"; EvWalk "/d";
        EvIsFile "/d/a.txt"; EvStat "/d/a.txt";
        EvIsFile "/d/b.TXT"; EvStat "/d/b.TXT";
        EvIsFile "/d/c"; EvStat "/d/c"; EvIsFile "/d/sub"], Ok d)
    /\ folder_scanner.total_files d = 3
    /\ folder_scanner.total_size d = 45
    /\ folder_scanner.largest_file_size d = 20
    /\ counter_total (folder_scanner.extension_counter d)
       = folder_scanner.total_files d.
Proof.
  exact (scanner_scan_readable dir_tie "/d" eq_refl eq_refl).
Defined.

(** X10.  [folder_scanner.scan_folder] stops at the first regular file
    whose size cannot be read: it raises [OSError] right after the size
    query on that file, no later entry is looked at, and no result is
    returned. *)
Theorem scanner_scan_unreadable fs folder_path l1 e l2 :
  fs_is_dir fs folder_path = true ->
  fs_listdir fs folder_path = (l1 ++ e :: l2)%list ->
  forallb readable l1 = true ->
  d_is_file e = true -> d_getsize e = None ->
  folder_scanner.scan_folder fs folder_path
  = (EvIsDir folder_path :: EvWalk folder_path
       :: (flat_map (scanner_events folder_path) l1
           ++ [EvIsFile (folder_scanner.path_join folder_path (d_name e));
               EvStat (folder_scanner.path_join folder_path (d_name e))])%list,
     Raise OSError).
Proof.
  intros Hdir Hl H1 Hf Hs.
  rewrite (scanner_scan_dir _ _ Hdir), Hl.
  now rewrite (scanner_loop_unreadable _ _ _ _ _ H1 Hf Hs).
Qed.

Lemma scanner_scan_unreadable_witness :
  folder_scanner.scan_folder dir_unreadable "/d"
  = ([EvIsDir "/d"; EvWalk "/d"; EvIsFile "/d/a.txt"; EvStat "/d/a.txt"],
     Raise OSError).
Proof.
  exact (scanner_scan_unreadable dir_unreadable "/d" []
           (mkDirEntry "a.txt" true None ".txt")
           [mkDirEntry "b.TXT" true (Some 7) ".TXT"]
           eq_refl eq_refl eq_refl eq_refl eq_refl).
Defined.

(** X11.  The largest file of [folder_scanner.scan_folder]: the name is
    [None] exactly when no regular file has a positive size (so also for a
    folder that holds only empty files), and among the files of maximal
    positive size the one listed first is reported. *)
Theorem scanner_largest_is_first_maximal fs folder_path :
  fs_is_dir fs folder_path = true ->
  forallb readable (fs_listdir fs folder_path) = true ->
  exists d,
    outcome (folder_scanner.scan_folder fs folder_path) = Ok d
    /\ (folder_scanner.largest_file_name d = None
        <-> d_max (filter d_is_file (fs_listdir fs folder_path)) = 0)
    /\ (forall l1 e l2,
          fs_listdir fs folder_path = (l1 ++ e :: l2)%list ->
          d_is_file e = true -> 0 < d_size e ->
          d_sizes_lt (d_size e) l1 = true ->
          d_sizes_le (d_size e) l2 = true ->
          folder_scanner.largest_file_name d = Some (d_name e)
          /\ folder_scanner.largest_file_size d = d_size e).
Proof.
  intros Hdir Hr. exists (scanner_walk (fs_listdir fs folder_path)).
  split; [|split].
  - rewrite (scanner_scan_dir _ _ Hdir).
    now rewrite (scanner_loop_readable _ _ _ Hr).
  - destruct (scanner_walk_aggregate (fs_listdir fs folder_path))
      as (_ & _ & _ & Hm & Hn).
    now rewrite <- Hm.
  - intros l1 e l2 -> Hf Hpos H1 H2. now apply scanner_first_maximal.
Qed.

Lemma scanner_largest_is_first_maximal_witness :
  (exists d,
     outcome (folder_scanner.scan_folder dir_empty_files "/d") = Ok d
     /\ folder_scanner.total_files d = 2
     /\ folder_scanner.largest_file_name d = None)
  /\ (exists d,
        outcome (folder_scanner.scan_folder dir_tie "/d") = Ok d
        /\ folder_scanner.largest_file_name d = Some "a.txt").
Proof.
  split.
  - destruct (scanner_largest_is_first_maximal dir_empty_files "/d"
                eq_refl eq_refl) as (d & E & Hn & _).
    exists d. split; [exact E|]. split.
    + injection E as <-. reflexivity.
    + apply Hn. reflexivity.
  - destruct (scanner_largest_is_first_maximal dir_tie "/d"
                eq_refl eq_refl) as (d & E & _ & Hfirst).
    exists d. split; [exact E|].
    apply (Hfirst [] (mkDirEntry "a.txt" true (Some 20) ".txt")
             [mkDirEntry "b.TXT" true (Some 20) ".TXT";
              mkDirEntry "c" true (Some 5) "";
              mkDirEntry "sub" false (Some 4096) ""]); reflexivity.
Defined.

(** ** The two size formatters *)

Lemma render_2f_integer (n : N) : render_2f n 0 = str_of_int n ++ ".00".
Proof.
  unfold render_2f, hundredths, round_shift. cbn [N.eqb].
  rewrite N.shiftr_0_r, (N.mul_comm 100 n), N.div_mul by discriminate.
  rewrite N.Div0.mod_mul. reflexivity.
Qed.

Lemma str_app_assoc (a b c : string) : (a ++ b) ++ c = a ++ (b ++ c).
Proof. induction a as [|x a IH]; cbn; [reflexivity|now rewrite IH]. Qed.

Lemma below_2_53 (n b : N) : n < b -> b <= 2 ^ 53 -> round53 n = n.
Proof. intros H1 H2. apply round53_small. lia. Qed.

Lemma below_overflow (n k : N) : n < 2 ^ 53 -> (n <? 2 ^ (1024 + k)) = true.
Proof.
  intros H. apply N.ltb_lt. apply N.lt_le_trans with (2 ^ 53); [exact H|].
  apply N.pow_le_mono_r; lia.
Qed.

(** X12.  [folder_report.format_size] prints a byte count below 1024
    exactly: the integer, ".00" and the unit [B]. *)
Theorem report_format_size_bytes (n : N) :
  n < 1024 ->
  folder_report.format_size n = Ok (str_of_int n ++ ".00 B").
Proof.
  intros H. rewrite format_size_first.
  apply N.ltb_lt in H as Hb. rewrite Hb.
  cbn [format_2f]. unfold float_of_int.
  rewrite (below_2_53 n 1024 H) by discriminate.
  assert (Hr : (n <? 2 ^ 1024) = true).
  { apply N.ltb_lt. apply N.lt_trans with 1024; [exact H|reflexivity]. }
  rewrite Hr. cbn [bindR]. rewrite render_2f_integer.
  now rewrite str_app_assoc.
Qed.

Lemma report_format_size_bytes_witness :
  folder_report.format_size 1023 = Ok (str_of_int 1023 ++ ".00 B").
Proof. apply report_format_size_bytes. reflexivity. Defined.

Lemma spec_format_range (n k : N) (u : string) :
  spec_scale ["KB"; "MB"; "GB"; "TB"; "PB"] n 0 "B" = (k, u) ->
  spec_format n = render_2f (round53 n) (10 * k) ++ " " ++ u.
Proof. unfold spec_format. now intros ->. Qed.

Lemma spec_scale_kb (n : N) :
  1024 <= n -> n < 1024 ^ 2 ->
  spec_scale ["KB"; "MB"; "GB"; "TB"; "PB"] n 0 "B" = (1, "KB").
Proof.
  intros H1 H2. cbn [spec_scale].
  change (1024 * 1024 ^ 0) with 1024.
  change (1024 * 1024 ^ (0 + 1)) with (1024 ^ 2).
  apply N.leb_le in H1. apply N.leb_gt in H2. now rewrite H1, H2.
Qed.

Lemma spec_scale_mb (n : N) :
  1024 ^ 2 <= n -> n < 1024 ^ 3 ->
  spec_scale ["KB"; "MB"; "GB"; "TB"; "PB"] n 0 "B" = (2, "MB").
Proof.
  intros H1 H2. cbn [spec_scale].
  change (1024 * 1024 ^ 0) with 1024.
  change (1024 * 1024 ^ (0 + 1)) with (1024 ^ 2).
  change (1024 * 1024 ^ (0 + 1 + 1)) with (1024 ^ 3).
  assert (H0 : 1024 <= n)
    by (apply N.le_trans with (1024 ^ 2); [discriminate|exact H1]).
  apply N.leb_le in H0, H1. apply N.leb_gt in H2. now rewrite H0, H1, H2.
Qed.

Lemma spec_scale_gb (n : N) :
  1024 ^ 3 <= n -> n < 1024 ^ 4 ->
  spec_scale ["KB"; "MB"; "GB"; "TB"; "PB"] n 0 "B" = (3, "GB").
Proof.
  intros H1 H2. cbn [spec_scale].
  change (1024 * 1024 ^ 0) with 1024.
  change (1024 * 1024 ^ (0 + 1)) with (1024 ^ 2).
  change (1024 * 1024 ^ (0 + 1 + 1)) with (1024 ^ 3).
  change (1024 * 1024 ^ (0 + 1 + 1 + 1)) with (1024 ^ 4).
  assert (Ha : 1024 ^ 2 <= n)
    by (apply N.le_trans with (1024 ^ 3); [discriminate|exact H1]).
  assert (H0 : 1024 <= n)
    by (apply N.le_trans with (1024 ^ 2); [discriminate|exact Ha]).
  apply N.leb_le in H0, Ha, H1. apply N.leb_gt in H2.
  now rewrite H0, Ha, H1, H2.
Qed.

Lemma scanner_format_size_cases (n : N) :
  folder_scanner.format_size n
  = if n <? 1024 then Ok (str_of_int n ++ " B")
    else if n <? 1024 ^ 2 then Ok (render_2f n 10 ++ " KB")
    else if n <? 1024 ^ 3 then Ok (render_2f n 20 ++ " MB")
    else if round53 n <? 2 ^ 1054
         then Ok (render_2f (round53 n) 30 ++ " GB")
         else Raise OverflowError.
Proof.
  unfold folder_scanner.format_size.
  destruct (N.ltb_spec n 1024) as [H0|H0]; [reflexivity|].
  destruct (N.ltb_spec n (1024 ^ 2)) as [H1|H1].
  { cbn [div_pow2]. rewrite (below_2_53 n _ H1) by discriminate.
    rewrite below_overflow; [reflexivity|].
    apply N.lt_trans with (1024 ^ 2); [exact H1|reflexivity]. }
  destruct (N.ltb_spec n (1024 ^ 3)) as [H2|H2].
  { cbn [div_pow2]. rewrite (below_2_53 n _ H2) by discriminate.
    rewrite below_overflow; [reflexivity|].
    apply N.lt_trans with (1024 ^ 3); [exact H2|reflexivity]. }
  cbn [div_pow2]. change (1024 + 30) with 1054.
  now destruct (round53 n <? 2 ^ 1054).
Qed.

(** X13.  [folder_scanner.format_size] prints a byte count below 1024 as
    the plain integer and [B]; from 1024 up to [1024^4] (excluded) it
    returns the very text of [folder_report.format_size]; from [1024^3] on
    the unit stays [GB]. *)
Theorem scanner_format_size_agrees (n : N) :
  (n < 1024 -> folder_scanner.format_size n = Ok (str_of_int n ++ " B"))
  /\ (1024 <= n -> n < 1024 ^ 4 ->
      folder_scanner.format_size n = folder_report.format_size n)
  /\ (1024 ^ 3 <= n -> n < 2 ^ 1024 ->
      folder_scanner.format_size n
      = Ok (render_2f (round53 n) 30 ++ " GB")).
Proof.
  rewrite scanner_format_size_cases. split; [|split].
  - intros H. apply N.ltb_lt in H. now rewrite H.
  - intros H0 H4.
    assert (Hs : n < 2 ^ 53)
      by (apply N.lt_trans with (1024 ^ 4); [exact H4|reflexivity]).
    assert (Hr : round53 n = n) by now apply round53_small.
    rewrite format_size_cases, Hr.
    rewrite (below_overflow n 10 Hs : (n <? 2 ^ 1034) = true).
    rewrite (below_overflow n 30 Hs : (n <? 2 ^ 1054) = true).
    apply N.ltb_ge in H0 as Hb0. rewrite Hb0.
    destruct (N.ltb_spec n (1024 ^ 2)) as [H1|H1].
    { rewrite (spec_format_range n _ _ (spec_scale_kb n H0 H1)), Hr.
      reflexivity. }
    destruct (N.ltb_spec n (1024 ^ 3)) as [H2|H2].
    { rewrite (spec_format_range n _ _ (spec_scale_mb n H1 H2)), Hr.
      reflexivity. }
    rewrite (spec_format_range n _ _ (spec_scale_gb n H2 H4)), Hr.
    reflexivity.
  - intros H3 Hb.
    assert (H0 : (n <? 1024) = false).
    { apply N.ltb_ge. apply N.le_trans with (1024 ^ 3);
        [discriminate|exact H3]. }
    assert (H1 : (n <? 1024 ^ 2) = false).
    { apply N.ltb_ge. apply N.le_trans with (1024 ^ 3);
        [discriminate|exact H3]. }
    apply N.ltb_ge in H3. rewrite H0, H1, H3.
    assert (Hr : round53 n < 2 ^ 1054).
    { apply N.lt_trans with (2 ^ 1034); [now apply round53_in_range|].
      apply N.pow_lt_mono_r; [lia|reflexivity]. }
    apply N.ltb_lt in Hr. now rewrite Hr.
Qed.

Lemma scanner_format_size_agrees_witness :
  folder_scanner.format_size 1000 = Ok (str_of_int 1000 ++ " B")
  /\ folder_scanner.format_size 1536 = folder_report.format_size 1536
  /\ folder_scanner.format_size (1024 ^ 5)
     = Ok (render_2f (round53 (1024 ^ 5)) 30 ++ " GB").
Proof.
  split; [|split].
  - apply (proj1 (scanner_format_size_agrees 1000)). reflexivity.
  - apply (proj1 (proj2 (scanner_format_size_agrees 1536)));
      [discriminate|reflexivity].
  - apply (proj2 (proj2 (scanner_format_size_agrees (1024 ^ 5))));
      [discriminate|reflexivity].
Defined.

(** ** The reports *)

















Lemma max_le_sum (l : list Entry) : max_of_sizes l <= sum_of_sizes l.
Proof.
  unfold max_of_sizes, sum_of_sizes.
  induction l as [|x l IH]; cbn [fold_right]; lia.
Qed.

Lemma bucket_size_le_sum (d : folder_report.buckets) (n : N) :
  In n (map (fun kb => folder_report.size (snd kb)) d) -> n <= sum_sizes d.
Proof.
  unfold sum_sizes. induction d as [|[k b] d IH]; cbn; [intros []|].
  intros [<-|H]; [lia|]. specialize (IH H). lia.
Qed.

Lemma walk_sizes_in_range (keep : Entry -> bool) (l : list Entry) :
  sum_of_sizes (filter keep l) < 2 ^ 1024 ->
  in_float_range
    (folder_report.total_size (walk keep l)
     :: folder_report.largest_size (walk keep l)
     :: map (fun kb => folder_report.size (snd kb))
            (folder_report.by_extension (walk keep l))).
Proof.
  intros H. unfold in_float_range.
  destruct (walk_coherent keep l) as [_ Hs].
  rewrite walk_total_sum. constructor; [exact H|].
  constructor.
  - rewrite walk_largest_size_max.
    apply N.le_lt_trans with (sum_of_sizes (filter keep l));
      [apply max_le_sum|exact H].
  - apply Forall_forall. intros n Hn.
    apply bucket_size_le_sum in Hn. rewrite Hs, walk_total_sum in Hn.
    apply N.le_lt_trans with (sum_of_sizes (filter keep l)); assumption.
Qed.

Lemma build_report_in_range (d : folder_report.data) :
  in_float_range (report_sizes d) ->
  exists s, folder_report.build_report d = Ok s.
Proof.
  intros Hd. unfold report_sizes, in_float_range in Hd.
  apply Forall_cons_iff in Hd as [Ht Hd].
  apply Forall_cons_iff in Hd as [Hl Hb].
  unfold folder_report.build_report.
  destruct (format_size_ok _ Ht) as [t ->]. cbn [bindR].
  destruct (largest_lines_ok (folder_report.d_largest_file d) _ Hl)
    as [ls ->]. cbn [bindR].
  destruct (breakdown_rows_ok _ Hb) as [rows ->]. cbn [bindR]. eauto.
Qed.

Lemma build_filtered_report_in_range (fd : filter_by_extension.data) :
  in_float_range (filtered_sizes fd) ->
  exists s, filter_by_extension.build_filtered_report fd = Ok s.
Proof.
  intros Hd. unfold filtered_sizes, in_float_range in Hd.
  apply Forall_cons_iff in Hd as [Ht Hd].
  apply Forall_cons_iff in Hd as [Hl Hb].
  unfold filter_by_extension.build_filtered_report.
  destruct (format_size_ok _ Ht) as [t ->]. cbn [bindR].
  destruct (largest_lines_ok (filter_by_extension.largest_file fd) _ Hl)
    as [ls ->]. cbn [bindR].
  destruct (breakdown_rows_ok _ Hb) as [rows ->]. cbn [bindR]. eauto.
Qed.

(** X16.  Scan, then report: when the sizes of the regular files of a
    directory add up to less than [2^1024], the result of either recursive
    scan, whatever the filters, is always rendered to a text. *)
Theorem scan_then_report fs folder_path extensions exclude :
  fs_is_dir fs (fs_resolve fs folder_path) = true ->
  sum_of_sizes (filter e_is_file (fs_rglob fs (fs_resolve fs folder_path)))
  < 2 ^ 1024 ->
  (exists d s,
     outcome (folder_report.scan_folder fs folder_path) = Ok d
     /\ folder_report.build_report d = Ok s)
  /\ (exists d s,
        outcome (filter_by_extension.scan_folder_filtered fs folder_path
                   extensions exclude) = Ok d
        /\ filter_by_extension.build_filtered_report d = Ok s).
Proof.
  intros Hdir Hsum. split.
  - destruct (build_report_in_range
                (report_data (fs_resolve fs folder_path)
                   (walk e_is_file (fs_rglob fs (fs_resolve fs folder_path)))))
      as [s Hs]; [now apply walk_sizes_in_range|].
    do 2 eexists. split; [now apply report_outcome|exact Hs].
  - set (inc := filter_by_extension.normalize extensions).
    set (exc := filter_by_extension.normalize exclude).
    destruct (build_filtered_report_in_range
                (filtered_data (fs_resolve fs folder_path)
                   (filtered_final fs folder_path extensions exclude)
                   inc exc)) as [s Hs].
    { unfold filtered_sizes. cbn.
      rewrite filtered_final_base. fold inc exc.
      apply walk_sizes_in_range.
      pose proof (sum_of_sizes_split (retained inc exc) (rejected inc exc)
                    e_is_file (fs_rglob fs (fs_resolve fs folder_path)))
        as Hsplit.
      rewrite <- Hsplit in Hsum.
      - lia.
      - intros x. unfold retained, rejected.
        now destruct (e_is_file x), (passes inc exc x).
      - intros x. unfold retained, rejected.
        now destruct (e_is_file x), (passes inc exc x). }
    do 2 eexists. split; [now apply filtered_outcome|exact Hs].
Qed.

Lemma scan_then_report_witness :
  (exists d s,
     outcome (folder_report.scan_folder dir_tie "d") = Ok d
     /\ folder_report.build_report d = Ok s)
  /\ (exists d s,
        outcome (filter_by_extension.scan_folder_filtered dir_tie "d"
                   (Some ["txt"]) None) = Ok d
        /\ filter_by_extension.build_filtered_report d = Ok s).
Proof.
  apply (scan_then_report dir_tie "d" (Some ["txt"]) None); reflexivity.
Defined.

(** ** The programs *)

Lemma print_and_save_spec fs can_write prefix folder output no_save s :
  folder_report.print_and_save fs can_write prefix folder output no_save s
  = (save_actions fs can_write prefix folder output no_save s,
     save_outcome fs can_write prefix folder output no_save).
Proof.
  unfold folder_report.print_and_save, save_actions, save_outcome,
    write_text, lift, resolve, print.
  destruct no_save; [reflexivity|]. cbn.
  destruct (can_write _); reflexivity.
Qed.


Lemma report_main_dir fs can_write args :
  fs_is_dir fs (fs_resolve fs (folder_report.arg_folder args)) = true ->
  folder_report.main fs can_write args
  = (let folder := folder_report.arg_folder args in
     let root := fs_resolve fs folder in
     let calls :=
       map Call ([EvResolve folder; EvIsDir root; EvWalk root]
                 ++ flat_map report_events (fs_rglob fs root)) in
     match folder_report.build_report
             (report_data root (report_final fs folder)) with
     | Ok s =>
         ((calls ++ save_actions fs can_write "folder_report_" folder
                      (folder_report.arg_output args)
                      (folder_report.arg_no_save args) s)%list,
          save_outcome fs can_write "folder_report_" folder
            (folder_report.arg_output args) (folder_report.arg_no_save args))
     | Raise e => (calls, Raise e)
     end).
Proof.
  intros Hdir. unfold folder_report.main, lift.
  rewrite (report_scan_dir _ _ Hdir).
  cbn [fst snd io_bind io_ret try_except_NotADirectoryError app].
  rewrite !app_nil_r. unfold io_of_result.
  destruct (folder_report.build_report _) as [s|e].
  - cbn [io_bind]. rewrite print_and_save_spec. reflexivity.
  - cbn [io_bind]. now rewrite app_nil_r.
Qed.







(** X18.  [folder_report.main] on a directory whose report is built: the
    report is printed; with [--no-save] nothing is written and 0 is
    returned; otherwise the same text is written to the resolved output
    path, a line naming that path is printed and 0 is returned; when the
    file cannot be written the program ends with [OSError], the report
    having been printed already. *)
Theorem main_prints_then_saves_same_text fs can_write
    (args : folder_report.Args) (s : string) :
  let folder := folder_report.arg_folder args in
  let root := fs_resolve fs folder in
  let calls :=
    map Call ([EvResolve folder; EvIsDir root; EvWalk root]
              ++ flat_map report_events (fs_rglob fs root)) in
  let out := folder_report.out_path "folder_report_" folder
               (folder_report.arg_output args) in
  let target := fs_resolve fs out in
  fs_is_dir fs root = true ->
  folder_report.build_report (report_data root (report_final fs folder))
  = Ok s ->
  (folder_report.arg_no_save args = true ->
   folder_report.main fs can_write args
   = ((calls ++ [Call (EvPrint s)])%list, Ok 0))
  /\ (folder_report.arg_no_save args = false ->
      can_write target = true ->
      folder_report.main fs can_write args
      = ((calls ++ [Call (EvPrint s); Call (EvResolve out);
                    WriteText target s;
                    Call (EvPrint (String (ascii_of_N 10) "Report saved to: "
                                   ++ target))])%list, Ok 0))
  /\ (folder_report.arg_no_save args = false ->
      can_write target = false ->
      folder_report.main fs can_write args
      = ((calls ++ [Call (EvPrint s); Call (EvResolve out)])%list,
         Raise OSError)).
Proof.
  intros folder root calls out target Hdir Hs.
  rewrite (report_main_dir _ _ _ Hdir). cbv zeta.
  fold folder root. rewrite Hs. fold calls.
  unfold save_actions, save_outcome. fold out target.
  split; [|split].
  - now intros ->.
  - now intros -> ->.
  - now intros -> ->.
Qed.

Lemma main_prints_then_saves_same_text_witness :
  exists s,
    folder_report.build_report
      (report_data "/d" (report_final dir_tie "d")) = Ok s
    /\ folder_report.main dir_tie (fun _ => true)
         (folder_report.mkArgs "d" (Some "out//report.txt") false)
       = ((map Call ([EvResolve "d"; EvIsDir "/d"; EvWalk "/d"]
                     ++ flat_map report_events (fs_rglob dir_tie "/d"))
           ++ [Call (EvPrint s); Call (EvResolve "out/report.txt");
               WriteText "out/report.txt" s;
               Call (EvPrint (String (ascii_of_N 10) "Report saved to: "
                              ++ "out/report.txt"))])%list, Ok 0).
Proof.
  destruct (build_report_in_range
              (report_data "/d" (report_final dir_tie "d")))
    as [s Hs]; [repeat constructor|].
  exists s. split; [exact Hs|].
  apply (proj1 (proj2 (main_prints_then_saves_same_text dir_tie
           (fun _ => true)
           (folder_report.mkArgs "d" (Some "out//report.txt") false) s
           eq_refl Hs))); reflexivity.
Defined.



(** X20.  [folder_scanner.main]: with anything but one argument it prints
    the usage line and exits with status 1 without touching the file
    system; on a path that is not a directory it exits with status 1 after
    the error line, and no report is printed or written; after a scan that
    returns, it prints the report and writes it, followed by a newline, to
    [scan_report.txt], whatever the folder scanned. *)
Theorem scanner_main_behaviour env fs can_write (argv : list string) :
  (length argv <> 2%nat ->
   folder_scanner.main env fs can_write argv
   = ([Call (EvPrint "Usage: python folder_scanner.py <folder_path>")],
      Raise (SystemExit 1)))
  /\ (forall prog folder_path,
        argv = [prog; folder_path] ->
        fs_is_dir fs folder_path = false ->
        folder_scanner.main env fs can_write argv
        = ([Call (EvIsDir folder_path);
            Call (EvPrint ("Error: '" ++ folder_path
                           ++ "' is not a valid directory."))],
           Raise (SystemExit 1)))
  /\ (forall prog folder_path t d s,
        argv = [prog; folder_path] ->
        folder_scanner.scan_folder fs folder_path = (t, Ok d) ->
        folder_scanner.build_report env folder_path d = Ok s ->
        can_write "scan_report.txt" = true ->
        folder_scanner.main env fs can_write argv
        = ((map Call t
            ++ [Call (EvPrint s);
                WriteText "scan_report.txt" (s ++ String (ascii_of_N 10) "");
                Call (EvPrint (String (ascii_of_N 10) "Report saved to: "
                               ++ folder_scanner.abspath env
                                    "scan_report.txt"))])%list,
           Ok tt)).
Proof.
  split; [|split].
  - intros Hlen. destruct argv as [|a [|b [|c l]]]; try reflexivity.
    now contradiction Hlen.
  - intros prog folder_path -> Hdir. unfold folder_scanner.main, lift.
    rewrite (scanner_scan_not_dir _ _ Hdir). reflexivity.
  - intros prog folder_path t d s -> Hscan Hs Hw.
    unfold folder_scanner.main, lift, io_of_result, write_text.
    rewrite Hscan. cbn [fst snd io_bind]. rewrite Hs. cbn [io_bind].
    rewrite Hw. reflexivity.
Qed.

Lemma scanner_main_behaviour_witness :
  folder_scanner.main (env_at 0) dir_tie (fun _ => true) ["prog"]
  = ([Call (EvPrint "Usage: python folder_scanner.py <folder_path>")],
     Raise (SystemExit 1))
  /\ folder_scanner.main (env_at 0) dir_tie (fun _ => true)
       ["prog"; "/missing"]
     = ([Call (EvIsDir "/missing");
         Call (EvPrint "Error: '/missing' is not a valid directory.")],
        Raise (SystemExit 1)).
Proof.
  destruct (scanner_main_behaviour (env_at 0) dir_tie (fun _ => true)
              ["prog"]) as (H1 & _).
  destruct (scanner_main_behaviour (env_at 0) dir_tie (fun _ => true)
              ["prog"; "/missing"]) as (_ & H2 & _).
  split; [apply H1; discriminate|].
  apply (H2 "prog" "/missing"); reflexivity.
Defined.

(** ** Calls made by the scanners, spelling of the filters *)









(** ** The single-level scanner and its report *)

Lemma scanner_format_size_ok (n : N) :
  n < 2 ^ 1024 -> exists s, folder_scanner.format_size n = Ok s.
Proof.
  intros H. rewrite scanner_format_size_cases.
  destruct (n <? 1024); [eauto|].
  destruct (n <? 1024 ^ 2); [eauto|].
  destruct (n <? 1024 ^ 3); [eauto|].
  assert (Hr : round53 n < 2 ^ 1054).
  { apply N.lt_trans with (2 ^ 1034); [now apply round53_in_range|].
    apply N.pow_lt_mono_r; [lia|reflexivity]. }
  apply N.ltb_lt in Hr. rewrite Hr. eauto.
Qed.

Lemma scanner_build_report_ok env folder_path (d : folder_scanner.locals) :
  folder_scanner.total_size d < 2 ^ 1024 ->
  folder_scanner.largest_file_size d < 2 ^ 1024 ->
  exists s, folder_scanner.build_report env folder_path d = Ok s.
Proof.
  intros Ht Hl. unfold folder_scanner.build_report.
  destruct (scanner_format_size_ok _ Ht) as [t ->]. cbn [bindR].
  destruct (folder_scanner.largest_file_name d) as [[|c n]|].
  - cbn [bindR]. eauto.
  - destruct (scanner_format_size_ok _ Hl) as [sz ->]. cbn [bindR]. eauto.
  - cbn [bindR]. eauto.
Qed.

Lemma d_max_le_sum (l : list DirEntry) : d_max l <= d_sum l.
Proof.
  unfold d_max, d_sum. induction l as [|x l IH]; cbn [fold_right]; lia.
Qed.

(** X23.  Scan, then report, in the single-level program: on a directory
    whose regular files all have a readable size, adding up to less than
    [2^1024], [scan_folder] returns and [build_report] renders its result
    to a text, at any date and from any working directory. *)
Theorem scanner_scan_then_report env fs folder_path :
  fs_is_dir fs folder_path = true ->
  forallb readable (fs_listdir fs folder_path) = true ->
  d_sum (filter d_is_file (fs_listdir fs folder_path)) < 2 ^ 1024 ->
  exists d s,
    outcome (folder_scanner.scan_folder fs folder_path) = Ok d
    /\ folder_scanner.build_report env folder_path d = Ok s.
Proof.
  intros Hdir Hr Hsum.
  destruct (scanner_walk_aggregate (fs_listdir fs folder_path))
    as (_ & Hs & _ & Hm & _).
  destruct (scanner_build_report_ok env folder_path
              (scanner_walk (fs_listdir fs folder_path))) as [s Hrep].
  - now rewrite Hs.
  - rewrite Hm. apply N.le_lt_trans with (2 := Hsum). apply d_max_le_sum.
  - exists (scanner_walk (fs_listdir fs folder_path)), s.
    split; [|exact Hrep].
    rewrite (scanner_scan_dir _ _ Hdir).
    now rewrite (scanner_loop_readable _ _ _ Hr).
Qed.

Lemma scanner_scan_then_report_witness :
  exists d s,
    outcome (folder_scanner.scan_folder dir_tie "/d") = Ok d
    /\ folder_scanner.build_report (env_at 0) "/d" d = Ok s.
Proof.
  apply (scanner_scan_then_report (env_at 0) dir_tie "/d"); reflexivity.
Defined.
